(** * The portfolio server: content and review routes over the embedded store

    A shallow embedding of the Express routes of the server file
    ([app.get], [app.post] and [app.delete] on [/api/content] and
    [/api/reviews]) together with the part of the SQLite driver they call.
    The module-level [db] handle is threaded explicitly: every handler maps
    the database before the request to the database after it and the
    response that was sent. *)

From Stdlib Require Import ZArith List String Bool Lia Sorted Permutation.
From Stdlib Require DecimalString.
Import ListNotations.

Local Open Scope string_scope.
Local Open Scope list_scope.
Local Open Scope Z_scope.

(** ** JavaScript values

    [express.json()] parses the request body, so the values the handlers
    destructure from [req.body] are JSON values; a property that is absent
    reads as [undefined].  Numbers are restricted to integers. *)
Module Js.

#[local] Set Warnings "-register-all".

Inductive value : Type :=
| Undefined
| Null
| Boolean (b : bool)
| Number (z : Z)
| Str (s : string)
| Array (elems : list value)
| Object (props : list (string * value)).

(** ToBoolean: [undefined], [null], [false], [0] and [""] are falsy; every
    array and every object is truthy. *)
Definition truthy (v : value) : bool :=
  match v with
  | Undefined | Null => false
  | Boolean b => b
  | Number z => negb (z =? 0)
  | Str s => negb (s =? "")%string
  | Array _ | Object _ => true
  end.

(** [!v] *)
Definition not (v : value) : bool := negb (truthy v).

(** [a || b] *)
Definition or (a b : value) : value := if truthy a then a else b.

(** [v !== s] for a string [s]: only the very same string is equal. *)
Definition strict_neq (v : value) (s : string) : bool :=
  match v with
  | Str t => negb (t =? s)%string
  | _ => true
  end.

(** Property read [o.k] on the properties of an object. *)
Fixpoint get (props : list (string * value)) (k : string) : value :=
  match props with
  | [] => Undefined
  | (k', v) :: rest => if (k' =? k)%string then v else get rest k
  end.

(** [req.headers[k]]: a string when the header was sent. *)
Definition header (h : option string) : value :=
  match h with
  | Some s => Str s
  | None => Undefined
  end.

End Js.

(** ** The store

    The two tables created by [db.exec] at start-up, and the statements the
    routes prepare and run.  A row records the values that were bound to
    the statement; column affinity leaves text in a TEXT column and an
    integer in an INTEGER column as they are.  [created_at] is the clock
    reading [CURRENT_TIMESTAMP] took at insertion, in seconds. *)
Module Sqlite.

Inductive value : Type :=
| Null
| Integer (z : Z)
| Text (s : string).

Record content_row : Type := mk_content {
  c_id : Z;
  c_title : value;
  c_body : value;
  c_type : value;
  c_pdf_data : value;
  c_created_at : Z
}.

Record review_row : Type := mk_review {
  r_id : Z;
  r_name : value;
  r_comment : value;
  r_rating : value;
  r_created_at : Z
}.

(** A table with an AUTOINCREMENT key: its rows in insertion order, and the
    largest key ever handed out (the table's entry in [sqlite_sequence]). *)
Record table (R : Type) : Type := mk_table {
  rows : list R;
  seq : Z
}.
Arguments mk_table {R} _ _.
Arguments rows {R} _.
Arguments seq {R} _.

Record database : Type := mk_db {
  content : table content_row;
  reviews : table review_row
}.

(** [new Database("literary.db")] on a fresh file, after the CREATE TABLE
    statements. *)
Definition empty : database :=
  mk_db (mk_table [] 0) (mk_table [] 0).

(** *** Binding the arguments of [Statement#run]

    The driver binds numbers, strings and [null]; any other value makes the
    call throw.  An array argument is spread: its elements are bound as
    consecutive positional parameters.  A plain object carries named
    parameters, of which the statements here have none, so it binds
    nothing; a second object makes the call throw.  The call also throws
    unless the number of bound values is the number of [?] in the
    statement.  [None] stands for a throwing call. *)
Definition bind_value (v : Js.value) : option value :=
  match v with
  | Js.Null => Some Null
  | Js.Number z => Some (Integer z)
  | Js.Str s => Some (Text s)
  | _ => None
  end.

Fixpoint bind_array (elems : list Js.value) : option (list value) :=
  match elems with
  | [] => Some []
  | e :: rest =>
      match bind_value e with
      | None => None
      | Some x =>
          match bind_array rest with
          | None => None
          | Some xs => Some (x :: xs)
          end
      end
  end.

Fixpoint bind_args (args : list Js.value) (bound_object : bool)
  : option (list value) :=
  match args with
  | [] => Some []
  | Js.Array elems :: rest =>
      match bind_array elems with
      | None => None
      | Some xs =>
          match bind_args rest bound_object with
          | None => None
          | Some ys => Some (xs ++ ys)
          end
      end
  | Js.Object _ :: rest =>
      if bound_object then None else bind_args rest true
  | v :: rest =>
      match bind_value v with
      | None => None
      | Some x =>
          match bind_args rest bound_object with
          | None => None
          | Some ys => Some (x :: ys)
          end
      end
  end.

Definition bind (args : list Js.value) (param_count : nat)
  : option (list value) :=
  match bind_args args false with
  | None => None
  | Some xs => if Nat.eqb (List.length xs) param_count then Some xs else None
  end.

(** NOT NULL column constraint. *)
Definition not_null (v : value) : bool :=
  match v with
  | Null => false
  | _ => true
  end.

(** [INSERT INTO content (title, body, type, pdf_data) VALUES (?, ?, ?, ?)]:
    the new row takes the next key and the current time; the result is the
    database and [info.lastInsertRowid]. *)
Definition insert_content (now : Z) (d : database) (args : list Js.value)
  : option (database * Z) :=
  match bind args 4 with
  | Some [title; body; type; pdf_data] =>
      if not_null title && not_null body && not_null type then
        let id := seq (content d) + 1 in
        let row := mk_content id title body type pdf_data now in
        Some (mk_db (mk_table (rows (content d) ++ [row]) id) (reviews d), id)
      else None
  | _ => None
  end.

(** [INSERT INTO reviews (name, comment, rating) VALUES (?, ?, ?)] *)
Definition insert_review (now : Z) (d : database) (args : list Js.value)
  : option (database * Z) :=
  match bind args 3 with
  | Some [name; comment; rating] =>
      if not_null name && not_null comment then
        let id := seq (reviews d) + 1 in
        let row := mk_review id name comment rating now in
        Some (mk_db (content d) (mk_table (rows (reviews d) ++ [row]) id), id)
      else None
  | _ => None
  end.

Section Affinity.

(** The [id] column has INTEGER affinity, so a text compared with it is
    first read as a number; [numeric s] is the integer the text [s] reads
    as, when it reads as one.  The routes hold for whatever texts the
    engine takes for integers, so the reading is left open here. *)
Variable numeric : string -> option Z.

(** [id = ?] *)
Definition id_equals (id : Z) (v : value) : bool :=
  match v with
  | Null => false
  | Integer z => id =? z
  | Text s =>
      match numeric s with
      | Some z => id =? z
      | None => false
      end
  end.

Definition delete_where {R : Type} (key : R -> Z) (v : value) (t : table R)
  : table R * Z :=
  let kept := filter (fun r => negb (id_equals (key r) v)) (rows t) in
  (mk_table kept (seq t),
   Z.of_nat (List.length (rows t)) - Z.of_nat (List.length kept)).

(** [DELETE FROM content WHERE id = ?]: the result is the database and
    [info.changes], the number of rows removed. *)
Definition delete_content (d : database) (args : list Js.value)
  : option (database * Z) :=
  match bind args 1 with
  | Some [v] =>
      let '(t, changes) := delete_where c_id v (content d) in
      Some (mk_db t (reviews d), changes)
  | _ => None
  end.

(** [DELETE FROM reviews WHERE id = ?] *)
Definition delete_review (d : database) (args : list Js.value)
  : option (database * Z) :=
  match bind args 1 with
  | Some [v] =>
      let '(t, changes) := delete_where r_id v (reviews d) in
      Some (mk_db (content d) t, changes)
  | _ => None
  end.

End Affinity.

(** [ORDER BY created_at DESC]: a sort of the rows on their timestamp,
    latest first. *)
Fixpoint insert_desc {R : Type} (key : R -> Z) (x : R) (l : list R) : list R :=
  match l with
  | [] => [x]
  | y :: l' => if key y <? key x then x :: l else y :: insert_desc key x l'
  end.

Definition order_by_desc {R : Type} (key : R -> Z) (l : list R) : list R :=
  fold_right (insert_desc key) [] l.

(** [SELECT * FROM content ORDER BY created_at DESC] *)
Definition select_content (d : database) : list content_row :=
  order_by_desc c_created_at (rows (content d)).

(** [SELECT * FROM reviews ORDER BY created_at DESC] *)
Definition select_reviews (d : database) : list review_row :=
  order_by_desc r_created_at (rows (reviews d)).

End Sqlite.

(** ** The routes *)
Module Server.

Import Sqlite.

(** What a handler reads of [req]: the [x-admin-key] header and the
    properties of the parsed JSON body. *)
Record http_request : Type := mk_request {
  x_admin_key : option string;
  body : list (string * Js.value)
}.

Inductive payload : Type :=
| ErrorMsg (error : string)
| Id (id : Z)
| Success
| ContentRows (l : list content_row)
| ReviewRows (l : list review_row)
| Fault.

Record response : Type := mk_response {
  status : Z;
  json : payload
}.

(** [res.json(p)] *)
Definition res_json (p : payload) : response := mk_response 200 p.

(** [res.status(code).json({ error })] *)
Definition res_error (code : Z) (error : string) : response :=
  mk_response code (ErrorMsg error).

(** An exception that escapes a handler: Express answers 500. *)
Definition res_fault : response := mk_response 500 Fault.

(** [process.env.ADMIN_SECRET || "jaxelricweb"] *)
Definition admin_secret (env : option string) : string :=
  match env with
  | Some s => if (s =? "")%string then "jaxelricweb" else s
  | None => "jaxelricweb"
  end.

(** [app.get("/api/content")] *)
Definition get_content (d : database) : database * response :=
  (d, res_json (ContentRows (select_content d))).

(** [app.post("/api/content")] *)
Definition post_content (env : option string) (now : Z) (d : database)
  (req : http_request) : database * response :=
  let title := Js.get (body req) "title" in
  let body_ := Js.get (body req) "body" in
  let type := Js.get (body req) "type" in
  let pdfData := Js.get (body req) "pdfData" in
  let adminKey := Js.get (body req) "adminKey" in
  let secret := admin_secret env in
  if Js.strict_neq adminKey secret then
    (d, res_error 401 "Unauthorized")
  else if Js.not title || Js.not body_ || Js.not type then
    (d, res_error 400 "Missing fields")
  else
    match insert_content now d [title; body_; type; Js.or pdfData Js.Null] with
    | Some (d', lastInsertRowid) => (d', res_json (Id lastInsertRowid))
    | None => (d, res_fault)
    end.

(** [app.get("/api/reviews")] *)
Definition get_reviews (d : database) : database * response :=
  (d, res_json (ReviewRows (select_reviews d))).

(** [app.post("/api/reviews")] *)
Definition post_review (now : Z) (d : database) (req : http_request)
  : database * response :=
  let name := Js.get (body req) "name" in
  let comment := Js.get (body req) "comment" in
  let rating := Js.get (body req) "rating" in
  if Js.not name || Js.not comment then
    (d, res_error 400 "Missing fields")
  else
    match insert_review now d [name; comment; Js.or rating (Js.Number 5)] with
    | Some (d', lastInsertRowid) => (d', res_json (Id lastInsertRowid))
    | None => (d, res_fault)
    end.

Section Routes.

Variable numeric : string -> option Z.

(** [app.delete("/api/content/:id")] with [req.params.id = id] *)
Definition delete_content_route (env : option string) (d : database)
  (req : http_request) (id : string) : database * response :=
  let adminKey := Js.header (x_admin_key req) in
  let secret := admin_secret env in
  if Js.strict_neq adminKey secret then
    (d, res_error 401 "Unauthorized")
  else
    match delete_content numeric d [Js.Str id] with
    | Some (d', changes) =>
        if changes =? 0 then (d', res_error 404 "Content not found")
        else (d', res_json Success)
    | None => (d, res_fault)
    end.

(** [app.delete("/api/reviews/:id")] with [req.params.id = id] *)
Definition delete_review_route (d : database) (req : http_request)
  (id : string) : database * response :=
  match delete_review numeric d [Js.Str id] with
  | Some (d', changes) =>
      if changes =? 0 then (d', res_error 404 "Review not found")
      else (d', res_json Success)
  | None => (d, res_fault)
  end.

(** The six API routes. *)
Inductive route : Type :=
| GET_content
| POST_content
| DELETE_content (id : string)
| DELETE_reviews (id : string)
| GET_reviews
| POST_reviews.

(** One request served at time [now]. *)
Definition handle (env : option string) (d : database)
  (call : Z * route * http_request) : database * response :=
  let '(now, r, req) := call in
  match r with
  | GET_content => get_content d
  | POST_content => post_content env now d req
  | DELETE_content id => delete_content_route env d req id
  | DELETE_reviews id => delete_review_route d req id
  | GET_reviews => get_reviews d
  | POST_reviews => post_review now d req
  end.

(** The database after a sequence of requests, served one at a time. *)
Definition serve (env : option string) (d : database)
  (calls : list (Z * route * http_request)) : database :=
  fold_left (fun d call => fst (handle env d call)) calls d.

End Routes.

End Server.

Import Sqlite Server.

(** ** Notions the statements use *)

(** The key constraint of a table: PRIMARY KEY makes the keys distinct, and
    AUTOINCREMENT keeps every key positive and at most the recorded
    sequence value. *)
Definition wf_table {R : Type} (key : R -> Z) (t : table R) : Prop :=
  NoDup (map key (rows t)) /\
  Forall (fun r => 0 < key r <= seq t) (rows t) /\
  0 <= seq t.

Definition wf (d : database) : Prop :=
  wf_table c_id (content d) /\ wf_table r_id (reviews d).

(** Latest first: [a] may stand before [b]. *)
Definition newest_first {R : Type} (key : R -> Z) (a b : R) : Prop :=
  key b <= key a.

(** A request field that holds the non-empty text [s]. *)
Definition present (v : Js.value) (s : string) : Prop :=
  v = Js.Str s /\ s <> "".

(** A request field that is absent, or the empty text. *)
Definition missing_or_empty (v : Js.value) : Prop :=
  v = Js.Undefined \/ v = Js.Str "".

(** A stored column value that is neither NULL nor the empty text. *)
Definition nonempty (v : value) : bool :=
  match v with
  | Null => false
  | Text s => negb (s =? "")%string
  | Integer _ => true
  end.

(** The attachment [pdfData || null] leaves in the row when [pdfData] is
    absent, [null] or a text. *)
Definition attachment (pdfData : Js.value) : value :=
  match pdfData with
  | Js.Str s => if (s =? "")%string then Null else Text s
  | _ => Null
  end.

Definition optional_text (v : Js.value) : Prop :=
  v = Js.Undefined \/ v = Js.Null \/ exists s, v = Js.Str s.

(** A field value that is not an array or an object. *)
Definition scalar (v : Js.value) : bool :=
  match v with
  | Js.Array _ | Js.Object _ => false
  | _ => true
  end.

Definition scalar_call (call : Z * route * http_request) : Prop :=
  forall k, scalar (Js.get (body (snd call)) k) = true.

Definition content_nonempty (r : content_row) : bool :=
  nonempty (c_title r) && nonempty (c_body r).

Definition review_nonempty (r : review_row) : bool :=
  nonempty (r_name r) && nonempty (r_comment r).

(** Every row of both tables has its two required texts non-empty. *)
Definition rows_nonempty (d : database) : Prop :=
  forallb content_nonempty (rows (content d)) = true /\
  forallb review_nonempty (rows (reviews d)) = true.

(** ** Worked requests *)

(** A reading of key texts that takes a run of decimal digits for the
    integer it spells, and nothing else. *)
Fixpoint digits (s : string) (acc : Z) : option Z :=
  match s with
  | EmptyString => Some acc
  | String c s' =>
      let n := Z.of_nat (Ascii.nat_of_ascii c) in
      if (48 <=? n) && (n <=? 57) then digits s' (10 * acc + (n - 48))
      else None
  end.

Definition decimal (s : string) : option Z :=
  match s with
  | EmptyString => None
  | _ => digits s 0
  end.

(** [POST /api/content] for the poem "Dawn" with admin key [key]. *)
Definition dawn (key : string) : http_request :=
  mk_request None
    [("title", Js.Str "Dawn"); ("body", Js.Str "First light.");
     ("type", Js.Str "poetry"); ("adminKey", Js.Str key)].

(** The row that request leaves behind when it is served at time 10 on the
    empty store, and the store holding it. *)
Definition dawn_row : content_row :=
  mk_content 1 (Text "Dawn") (Text "First light.") (Text "poetry") Null 10.

Definition ann_row (rating : Z) : review_row :=
  mk_review 1 (Text "Ann") (Text "Lovely.") (Integer rating) 20.

Definition one_each : database :=
  mk_db (mk_table [dawn_row] 1) (mk_table [ann_row 5] 1).

(** [POST /api/reviews] by Ann, with the given extra properties. *)
Definition ann (extra : list (string * Js.value)) : http_request :=
  mk_request None
    (("name", Js.Str "Ann") :: ("comment", Js.Str "Lovely.") :: extra).

(** A [DELETE] request carrying the given [x-admin-key] header. *)
Definition with_key (key : option string) : http_request :=
  mk_request key [].

(** [POST /api/content] whose title is the one-element array [[""]]. *)
Definition wrapped_title : http_request :=
  mk_request None
    [("title", Js.Array [Js.Str ""]); ("body", Js.Str "First light.");
     ("type", Js.Str "poetry"); ("adminKey", Js.Str "jaxelricweb")].

(** [POST /api/reviews] whose name is the one-element array [[""]]. *)
Definition wrapped_name : http_request :=
  mk_request None
    [("name", Js.Array [Js.Str ""]); ("comment", Js.Str "Lovely.")].

(** ** The page

    The state and the event handlers of the [App] component, run against
    the server above.  A handler that awaits [fetch] is taken with the
    request it sends served at once, with no request of another client in
    between; [alert] appends to the messages shown, latest first.  The
    signature image and its state are left out. *)
Module Client.

(** The two values of the type selector, ['poetry' | 'novel']. *)
Inductive kind : Type := poetry | novel.

Definition kind_name (k : kind) : string :=
  match k with
  | poetry => "poetry"
  | novel => "novel"
  end.

Record state : Type := mk_state {
  contents : list content_row;
  reviews : list review_row;
  isAdmin : bool;
  adminKey : string;
  showAdminLogin : bool;
  newTitle : string;
  newBody : string;
  newType : kind;
  newPdfData : option string;
  reviewName : string;
  reviewComment : string;
  reviewRating : Z;
  selectedContent : option content_row;
  alerts : list string
}.

(** The [useState] defaults. *)
Definition initial : state :=
  mk_state [] [] false "" false "" "" poetry None "" "" 5 None [].

Definition setContents (l : list content_row) (st : state) : state :=
  mk_state l (reviews st) (isAdmin st) (adminKey st) (showAdminLogin st)
    (newTitle st) (newBody st) (newType st) (newPdfData st)
    (reviewName st) (reviewComment st) (reviewRating st)
    (selectedContent st) (alerts st).

Definition setReviews (l : list review_row) (st : state) : state :=
  mk_state (contents st) l (isAdmin st) (adminKey st) (showAdminLogin st)
    (newTitle st) (newBody st) (newType st) (newPdfData st)
    (reviewName st) (reviewComment st) (reviewRating st)
    (selectedContent st) (alerts st).

Definition setIsAdmin (b : bool) (st : state) : state :=
  mk_state (contents st) (reviews st) b (adminKey st) (showAdminLogin st)
    (newTitle st) (newBody st) (newType st) (newPdfData st)
    (reviewName st) (reviewComment st) (reviewRating st)
    (selectedContent st) (alerts st).

Definition setAdminKey (s : string) (st : state) : state :=
  mk_state (contents st) (reviews st) (isAdmin st) s (showAdminLogin st)
    (newTitle st) (newBody st) (newType st) (newPdfData st)
    (reviewName st) (reviewComment st) (reviewRating st)
    (selectedContent st) (alerts st).

Definition setShowAdminLogin (b : bool) (st : state) : state :=
  mk_state (contents st) (reviews st) (isAdmin st) (adminKey st) b
    (newTitle st) (newBody st) (newType st) (newPdfData st)
    (reviewName st) (reviewComment st) (reviewRating st)
    (selectedContent st) (alerts st).

Definition setNewTitle (s : string) (st : state) : state :=
  mk_state (contents st) (reviews st) (isAdmin st) (adminKey st)
    (showAdminLogin st) s (newBody st) (newType st) (newPdfData st)
    (reviewName st) (reviewComment st) (reviewRating st)
    (selectedContent st) (alerts st).

Definition setNewBody (s : string) (st : state) : state :=
  mk_state (contents st) (reviews st) (isAdmin st) (adminKey st)
    (showAdminLogin st) (newTitle st) s (newType st) (newPdfData st)
    (reviewName st) (reviewComment st) (reviewRating st)
    (selectedContent st) (alerts st).

Definition setNewType (k : kind) (st : state) : state :=
  mk_state (contents st) (reviews st) (isAdmin st) (adminKey st)
    (showAdminLogin st) (newTitle st) (newBody st) k (newPdfData st)
    (reviewName st) (reviewComment st) (reviewRating st)
    (selectedContent st) (alerts st).

Definition setNewPdfData (p : option string) (st : state) : state :=
  mk_state (contents st) (reviews st) (isAdmin st) (adminKey st)
    (showAdminLogin st) (newTitle st) (newBody st) (newType st) p
    (reviewName st) (reviewComment st) (reviewRating st)
    (selectedContent st) (alerts st).

Definition setReviewName (s : string) (st : state) : state :=
  mk_state (contents st) (reviews st) (isAdmin st) (adminKey st)
    (showAdminLogin st) (newTitle st) (newBody st) (newType st)
    (newPdfData st) s (reviewComment st) (reviewRating st)
    (selectedContent st) (alerts st).

Definition setReviewComment (s : string) (st : state) : state :=
  mk_state (contents st) (reviews st) (isAdmin st) (adminKey st)
    (showAdminLogin st) (newTitle st) (newBody st) (newType st)
    (newPdfData st) (reviewName st) s (reviewRating st)
    (selectedContent st) (alerts st).

Definition setReviewRating (n : Z) (st : state) : state :=
  mk_state (contents st) (reviews st) (isAdmin st) (adminKey st)
    (showAdminLogin st) (newTitle st) (newBody st) (newType st)
    (newPdfData st) (reviewName st) (reviewComment st) n
    (selectedContent st) (alerts st).

Definition setSelectedContent (c : option content_row) (st : state) : state :=
  mk_state (contents st) (reviews st) (isAdmin st) (adminKey st)
    (showAdminLogin st) (newTitle st) (newBody st) (newType st)
    (newPdfData st) (reviewName st) (reviewComment st) (reviewRating st)
    c (alerts st).

(** [alert(msg)] *)
Definition alert (msg : string) (st : state) : state :=
  mk_state (contents st) (reviews st) (isAdmin st) (adminKey st)
    (showAdminLogin st) (newTitle st) (newBody st) (newType st)
    (newPdfData st) (reviewName st) (reviewComment st) (reviewRating st)
    (selectedContent st) (msg :: alerts st).

(** [res.ok]: a status from 200 to 299. *)
Definition ok (res : response) : bool :=
  (200 <=? status res) && (status res <=? 299).

(** The template literal [${id}] of a row key: its decimal digits. *)
Definition render (id : Z) : string :=
  DecimalString.NilZero.string_of_int (Z.to_int id).

(** *** What is drawn *)

(** [contents.filter(c => c.type === 'poetry')] and its ['novel'] twin. *)
Definition type_is (name : string) (c : content_row) : bool :=
  match c_type c with
  | Text s => (s =? name)%string
  | _ => false
  end.

Definition poetry_section (st : state) : list content_row :=
  filter (type_is "poetry") (contents st).

Definition novel_section (st : state) : list content_row :=
  filter (type_is "novel") (contents st).

(** [[...Array(5)].map((_, i) => i < review.rating)]: which of the five
    stars of a review with a numeric rating are filled. *)
Definition stars (rating : Z) : list bool :=
  map (fun i => i <? rating) [0; 1; 2; 3; 4].

(** [[1, 2, 3, 4, 5].map(num => num <= reviewRating)]: the stars of the
    rating picker. *)
Definition picker (st : state) : list bool :=
  map (fun num => num <=? reviewRating st) [1; 2; 3; 4; 5].

(** *** The requests the handlers send *)

(** The body [JSON.stringify] makes in [handleUpload]. *)
Definition upload_request (st : state) : http_request :=
  mk_request None
    [("title", Js.Str (newTitle st));
     ("body", Js.Str (newBody st));
     ("type", Js.Str (kind_name (newType st)));
     ("pdfData", match newPdfData st with
                 | Some s => Js.Str s
                 | None => Js.Null
                 end);
     ("adminKey", Js.Str (adminKey st))].

(** The body [JSON.stringify] makes in [handleReviewSubmit]. *)
Definition review_request (st : state) : http_request :=
  mk_request None
    [("name", Js.Str (reviewName st));
     ("comment", Js.Str (reviewComment st));
     ("rating", Js.Number (reviewRating st))].

(** The [DELETE] request of [handleDelete], with its header. *)
Definition delete_request (st : state) : http_request :=
  mk_request (Some (adminKey st)) [].

(** The [DELETE] request of [handleDeleteReview], without any. *)
Definition delete_review_request : http_request :=
  mk_request None [].

(** *** The handlers *)

Definition fetchContent (d : database) (st : state) : database * state :=
  let '(d', res) := get_content d in
  match json res with
  | ContentRows data => (d', setContents data st)
  | _ => (d', st)
  end.

Definition fetchReviews (d : database) (st : state) : database * state :=
  let '(d', res) := get_reviews d in
  match json res with
  | ReviewRows data => (d', setReviews data st)
  | _ => (d', st)
  end.

(** The effect run once on mount. *)
Definition mount (d : database) (st : state) : database * state :=
  let '(d1, st1) := fetchContent d st in
  fetchReviews d1 st1.

Definition handleUpload (env : option string) (now : Z) (d : database)
  (st : state) : database * state :=
  let '(d1, res) := post_content env now d (upload_request st) in
  if ok res then
    let st1 := setNewPdfData None (setNewBody "" (setNewTitle "" st)) in
    let '(d2, st2) := fetchContent d1 st1 in
    (d2, alert "Content uploaded successfully!" st2)
  else
    (d1, alert "Upload failed. Check your admin key." st).

(** [file] is [e.target.files?.[0]] as its MIME type and the data URL the
    reader makes of it. *)
Definition handleFileChange (file : option (string * string)) (st : state)
  : state :=
  match file with
  | Some (type, result) =>
      if negb (type =? "application/pdf")%string then
        alert "Please upload a PDF file." st
      else setNewPdfData (Some result) st
  | None => st
  end.

Definition handleReviewSubmit (now : Z) (d : database) (st : state)
  : database * state :=
  let '(d1, res) := post_review now d (review_request st) in
  if ok res then
    let st1 :=
      setReviewRating 5 (setReviewComment "" (setReviewName "" st)) in
    let '(d2, st2) := fetchReviews d1 st1 in
    (d2, alert "Thank you for your review!" st2)
  else
    (d1, st).

Definition handleAdminLogin (st : state) : state :=
  if (adminKey st =? "jaxelricweb")%string then
    setShowAdminLogin false (setIsAdmin true st)
  else
    alert "Invalid admin key" st.

Section Deleting.

Variable numeric : string -> option Z.

(** [confirmed] is the answer to [confirm(...)]. *)
Definition handleDelete (env : option string) (d : database) (st : state)
  (id : Z) (confirmed : bool) : database * state :=
  if negb confirmed then (d, st)
  else
    let '(d1, res) :=
      delete_content_route numeric env d (delete_request st) (render id) in
    if ok res then fetchContent d1 st
    else
      match json res with
      | ErrorMsg error =>
          let shown := if (error =? "")%string then "Unknown error"
                       else error in
          (d1, alert ("Delete failed: " ++ shown)%string st)
      | _ => (d1, st)
      end.

Definition handleDeleteReview (d : database) (st : state) (id : Z)
  (confirmed : bool) : database * state :=
  if negb confirmed then (d, st)
  else
    let '(d1, res) :=
      delete_review_route numeric d delete_review_request (render id) in
    if ok res then fetchReviews d1 st
    else (d1, alert "Failed to delete review." st).

(** What a visitor can do to the page.  A star of the picker is one of the
    buttons drawn for [[1, 2, 3, 4, 5]], named by its position. *)
Inductive event : Type :=
| Mount
| ToggleAdminLogin
| TypeAdminKey (s : string)
| SubmitAdminLogin
| TypeTitle (s : string)
| TypeBody (s : string)
| SelectType (k : kind)
| ChooseFile (file : option (string * string))
| SubmitUpload (now : Z)
| ClickDelete (id : Z) (confirmed : bool)
| ClickDeleteReview (id : Z) (confirmed : bool)
| TypeReviewName (s : string)
| TypeReviewComment (s : string)
| ClickStar (position : nat)
| SubmitReview (now : Z)
| OpenWork (c : content_row)
| CloseWork.

Definition dispatch (env : option string) (d : database) (st : state)
  (ev : event) : database * state :=
  match ev with
  | Mount => mount d st
  | ToggleAdminLogin => (d, setShowAdminLogin (negb (showAdminLogin st)) st)
  | TypeAdminKey s => (d, setAdminKey s st)
  | SubmitAdminLogin => (d, handleAdminLogin st)
  | TypeTitle s => (d, setNewTitle s st)
  | TypeBody s => (d, setNewBody s st)
  | SelectType k => (d, setNewType k st)
  | ChooseFile file => (d, handleFileChange file st)
  | SubmitUpload now => handleUpload env now d st
  | ClickDelete id confirmed => handleDelete env d st id confirmed
  | ClickDeleteReview id confirmed => handleDeleteReview d st id confirmed
  | TypeReviewName s => (d, setReviewName s st)
  | TypeReviewComment s => (d, setReviewComment s st)
  | ClickStar position =>
      match nth_error [1; 2; 3; 4; 5] position with
      | Some num => (d, setReviewRating num st)
      | None => (d, st)
      end
  | SubmitReview now => handleReviewSubmit now d st
  | OpenWork c => (d, setSelectedContent (Some c) st)
  | CloseWork => (d, setSelectedContent None st)
  end.

(** The store and the page after a sequence of events. *)
Definition play (env : option string) (d : database) (st : state)
  (evs : list event) : database * state :=
  fold_left (fun ds ev => dispatch env (fst ds) (snd ds) ev) evs (d, st).

End Deleting.

End Client.

(** ** Notions of the further statements *)

(** A work as the page makes them: title and body non-empty texts, type
    one of the two kinds. *)
Definition page_work (r : content_row) : bool :=
  content_nonempty r &&
  (Client.type_is "poetry" r || Client.type_is "novel" r).

(** A review as the page makes them: name and comment non-empty, rating an
    integer from 1 to 5. *)
Definition page_review (r : review_row) : bool :=
  review_nonempty r &&
  match r_rating r with
  | Integer z => (1 <=? z) && (z <=? 5)
  | _ => false
  end.

Definition page_store (d : database) : Prop :=
  forallb page_work (rows (content d)) = true /\
  forallb page_review (rows (reviews d)) = true.

(** The status codes the routes send. *)
Definition sent_status (res : response) : bool :=
  existsb (Z.eqb (status res)) [200; 400; 401; 404; 500].

(** [POST /api/content] for the essay "Dusk" with admin key [key]. *)
Definition dusk (key : string) : http_request :=
  mk_request None
    [("title", Js.Str "Dusk"); ("body", Js.Str "Last light.");
     ("type", Js.Str "essay"); ("adminKey", Js.Str key)].

(** ** Basic facts about the values and the secret *)

Lemma strict_neq_same (s : string) : Js.strict_neq (Js.Str s) s = false.
Proof. simpl. now rewrite String.eqb_refl. Qed.

Lemma strict_neq_other (v : Js.value) (s : string) :
  v <> Js.Str s -> Js.strict_neq v s = true.
Proof.
  intros Hne. destruct v; simpl; try reflexivity.
  destruct (String.eqb_spec s0 s) as [->|]; [now elim Hne | reflexivity].
Qed.

Lemma strict_neq_false (v : Js.value) (s : string) :
  Js.strict_neq v s = false -> v = Js.Str s.
Proof.
  destruct v; simpl; try discriminate.
  destruct (String.eqb_spec s0 s) as [->|]; [reflexivity | discriminate].
Qed.

Lemma not_present (v : Js.value) (s : string) :
  present v s -> Js.not v = false.
Proof.
  intros [-> Hs]. unfold Js.not. simpl.
  destruct (String.eqb_spec s "") as [->|]; [now elim Hs | reflexivity].
Qed.

Lemma not_missing_or_empty (v : Js.value) :
  missing_or_empty v -> Js.not v = true.
Proof. now intros [-> | ->]. Qed.

Lemma admin_secret_nonempty (env : option string) : admin_secret env <> "".
Proof.
  destruct env as [s|]; simpl; [|discriminate].
  destruct (String.eqb_spec s ""); [discriminate | assumption].
Qed.

Lemma or_optional_text (v : Js.value) :
  optional_text v ->
  bind_value (Js.or v Js.Null) = Some (attachment v) /\
  scalar (Js.or v Js.Null) = true.
Proof.
  intros [-> | [-> | [s ->]]]; try (split; reflexivity).
  unfold Js.or. simpl. destruct (s =? "")%string; split; reflexivity.
Qed.

(** ** The POST routes, branch by branch *)

Lemma post_content_unauthorized env now d req :
  Js.get (body req) "adminKey" <> Js.Str (admin_secret env) ->
  post_content env now d req = (d, res_error 401 "Unauthorized").
Proof.
  intros Hkey. unfold post_content.
  now rewrite (strict_neq_other _ _ Hkey).
Qed.

Lemma post_content_missing env now d req :
  Js.get (body req) "adminKey" = Js.Str (admin_secret env) ->
  Js.not (Js.get (body req) "title")
  || Js.not (Js.get (body req) "body")
  || Js.not (Js.get (body req) "type") = true ->
  post_content env now d req = (d, res_error 400 "Missing fields").
Proof.
  intros Hkey Hmiss. unfold post_content.
  now rewrite Hkey, strict_neq_same, Hmiss.
Qed.

Lemma post_content_status_400 env now d req :
  status (snd (post_content env now d req)) = 400 ->
  Js.get (body req) "adminKey" = Js.Str (admin_secret env).
Proof.
  unfold post_content.
  destruct (Js.strict_neq _ _) eqn:Hkey; [discriminate|].
  intros _. now apply strict_neq_false.
Qed.

Lemma post_content_texts env now d req t b k :
  Js.get (body req) "adminKey" = Js.Str (admin_secret env) ->
  present (Js.get (body req) "title") t ->
  present (Js.get (body req) "body") b ->
  present (Js.get (body req) "type") k ->
  optional_text (Js.get (body req) "pdfData") ->
  let id := seq (content d) + 1 in
  let row := mk_content id (Text t) (Text b) (Text k)
               (attachment (Js.get (body req) "pdfData")) now in
  post_content env now d req =
  (mk_db (mk_table (rows (content d) ++ [row]) id) (reviews d),
   res_json (Id id)).
Proof.
  intros Hkey Ht Hb Hk Hpdf. cbv zeta. unfold post_content.
  rewrite Hkey, strict_neq_same.
  rewrite (not_present _ _ Ht), (not_present _ _ Hb), (not_present _ _ Hk).
  destruct Ht as [-> _], Hb as [-> _], Hk as [-> _].
  destruct (or_optional_text _ Hpdf) as [Hbind Hsc].
  unfold insert_content, bind. cbn [orb bind_args bind_value].
  destruct (Js.or _ Js.Null) eqn:Hor; try discriminate Hsc;
    cbn [bind_value] in Hbind |- *; try discriminate Hbind;
    injection Hbind as <-; reflexivity.
Qed.

Lemma post_review_texts now d req n c z :
  present (Js.get (body req) "name") n ->
  present (Js.get (body req) "comment") c ->
  Js.or (Js.get (body req) "rating") (Js.Number 5) = Js.Number z ->
  let id := seq (reviews d) + 1 in
  post_review now d req =
  (mk_db (content d)
     (mk_table (rows (reviews d) ++ [mk_review id (Text n) (Text c) (Integer z) now]) id),
   res_json (Id id)).
Proof.
  intros Hn Hc Hr. cbv zeta. unfold post_review.
  rewrite (not_present _ _ Hn), (not_present _ _ Hc), Hr.
  destruct Hn as [-> _], Hc as [-> _]. reflexivity.
Qed.

Lemma fresh_key {R : Type} (key : R -> Z) (t : table R) :
  wf_table key t -> ~ In (seq t + 1) (map key (rows t)).
Proof.
  intros [_ [Hb _]] Hin. apply in_map_iff in Hin as [r [Hr Hin]].
  rewrite Forall_forall in Hb. specialize (Hb r Hin). lia.
Qed.

(** ** [ORDER BY created_at DESC] returns the rows, latest first *)

Section Ordering.

Context {R : Type} (key : R -> Z).

Lemma insert_desc_perm (x : R) (l : list R) :
  Permutation (insert_desc key x l) (x :: l).
Proof.
  induction l as [|y l IH]; simpl; [reflexivity|].
  destruct (key y <? key x); [reflexivity|].
  rewrite IH. apply perm_swap.
Qed.

Lemma order_by_desc_perm (l : list R) :
  Permutation (order_by_desc key l) l.
Proof.
  induction l as [|x l IH]; simpl; [constructor|].
  rewrite insert_desc_perm. now constructor.
Qed.

Lemma insert_desc_sorted (x : R) (l : list R) :
  StronglySorted (newest_first key) l ->
  StronglySorted (newest_first key) (insert_desc key x l).
Proof.
  induction 1 as [|y l Hs IH Hall]; simpl.
  - repeat constructor.
  - destruct (Z.ltb_spec (key y) (key x)) as [Hlt | Hge].
    + constructor; [now constructor|].
      constructor; [unfold newest_first; lia|].
      eapply Forall_impl; [|exact Hall].
      unfold newest_first. intros; lia.
    + constructor; [assumption|].
      apply (Permutation_Forall (Permutation_sym (insert_desc_perm x l))).
      now constructor.
Qed.

Lemma order_by_desc_sorted (l : list R) :
  StronglySorted (newest_first key) (order_by_desc key l).
Proof.
  induction l as [|x l IH]; simpl; [constructor|].
  now apply insert_desc_sorted.
Qed.

End Ordering.

(** ** [DELETE ... WHERE id = ?] against distinct keys *)

Section Deleting.

Variable numeric : string -> option Z.
Context {R : Type} (key : R -> Z).

Lemma id_equals_text (k : Z) (s : string) :
  id_equals numeric k (Text s) = true <-> numeric s = Some k.
Proof.
  simpl. destruct (numeric s) as [z|]; [|split; discriminate].
  rewrite Z.eqb_eq. split; [now intros -> | now intros [= ->]].
Qed.

Lemma filter_all (f : R -> bool) (l : list R) :
  (forall r, In r l -> f r = true) -> filter f l = l.
Proof.
  induction l as [|x l IH]; simpl; intros Hall; [reflexivity|].
  rewrite (Hall x (or_introl eq_refl)). f_equal. apply IH. auto.
Qed.

Lemma keeps_other_keys (s : string) (k : Z) (l : list R) :
  numeric s = Some k -> ~ In k (map key l) ->
  filter (fun r => negb (id_equals numeric (key r) (Text s))) l = l.
Proof.
  intros Hs Hk. apply filter_all. intros r Hr.
  destruct (id_equals numeric (key r) (Text s)) eqn:E; [|reflexivity].
  apply id_equals_text in E. rewrite Hs in E. injection E as ->.
  elim Hk. now apply in_map.
Qed.

Lemma delete_where_absent (s : string) (t : table R) :
  (forall r, In r (rows t) -> numeric s <> Some (key r)) ->
  delete_where numeric key (Text s) t = (t, 0).
Proof.
  intros Habs. unfold delete_where. rewrite filter_all.
  - destruct t; simpl. f_equal. lia.
  - intros r Hr. destruct (id_equals numeric (key r) (Text s)) eqn:E;
      [|reflexivity].
    apply id_equals_text in E. now elim (Habs r Hr).
Qed.

Lemma delete_where_present (s : string) (t : table R) (r : R) (l1 l2 : list R) :
  NoDup (map key (rows t)) ->
  rows t = l1 ++ r :: l2 ->
  numeric s = Some (key r) ->
  delete_where numeric key (Text s) t = (mk_table (l1 ++ l2) (seq t), 1).
Proof.
  intros Hnd Hrows Hs. unfold delete_where. rewrite Hrows in *.
  rewrite map_app in Hnd. simpl in Hnd.
  pose proof (NoDup_remove_2 _ _ _ Hnd) as Hnotin.
  rewrite in_app_iff in Hnotin.
  rewrite filter_app. cbn [filter].
  rewrite (proj2 (id_equals_text (key r) s) Hs). cbn [negb].
  rewrite !(keeps_other_keys s (key r)) by tauto.
  f_equal. rewrite !length_app. simpl. lia.
Qed.

End Deleting.

(** ** The key constraint holds in every store the server can reach *)

Lemma wf_empty : wf empty.
Proof. repeat split; simpl; try constructor; lia. Qed.

Lemma wf_table_insert {R : Type} (key : R -> Z) (t : table R) (row : R) :
  wf_table key t -> key row = seq t + 1 ->
  wf_table key (mk_table (rows t ++ [row]) (seq t + 1)).
Proof.
  intros Hwf Hrow. pose proof (fresh_key key t Hwf) as Hfresh.
  destruct Hwf as [Hnd [Hb Hseq]]. repeat split; simpl; [| |lia].
  - rewrite map_app. simpl.
    apply (Permutation_NoDup (l := key row :: map key (rows t))).
    + apply Permutation_cons_append.
    + constructor; [now rewrite Hrow | assumption].
  - apply Forall_app. split.
    + eapply Forall_impl; [|exact Hb]. simpl. intros; lia.
    + constructor; [lia | constructor].
Qed.

Lemma NoDup_map_filter {R : Type} (key : R -> Z) (f : R -> bool) (l : list R) :
  NoDup (map key l) -> NoDup (map key (filter f l)).
Proof.
  induction l as [|x l IH]; simpl; intros Hnd; [constructor|].
  inversion Hnd as [|? ? Hx Hl]; subst.
  destruct (f x); simpl; [constructor|]; auto.
  intros Hin. apply Hx. apply in_map_iff in Hin as [y [Hy Hin]].
  apply filter_In in Hin as [Hin _]. rewrite <- Hy. now apply in_map.
Qed.

Lemma wf_table_delete (numeric : string -> option Z) {R : Type}
  (key : R -> Z) (v : value) (t : table R) :
  wf_table key t -> wf_table key (fst (delete_where numeric key v t)).
Proof.
  intros [Hnd [Hb Hseq]]. repeat split; simpl; [| |assumption].
  - now apply NoDup_map_filter.
  - rewrite Forall_forall in *. intros r Hr.
    apply filter_In in Hr as [Hr _]. auto.
Qed.

Lemma insert_content_wf now d args d' id :
  insert_content now d args = Some (d', id) -> wf d -> wf d'.
Proof.
  unfold insert_content.
  destruct (bind args 4) as [[|t [|b [|k [|p [|]]]]]|]; try discriminate.
  destruct (_ && _); [|discriminate].
  intros [= <- _] [Hc Hr]. split; simpl; [|assumption].
  now apply wf_table_insert.
Qed.

Lemma insert_review_wf now d args d' id :
  insert_review now d args = Some (d', id) -> wf d -> wf d'.
Proof.
  unfold insert_review.
  destruct (bind args 3) as [[|n [|c [|r [|]]]]|]; try discriminate.
  destruct (_ && _); [|discriminate].
  intros [= <- _] [Hc Hr]. split; simpl; [assumption|].
  now apply wf_table_insert.
Qed.

Section Reachable.

Variable numeric : string -> option Z.

Lemma delete_content_wf d args d' changes :
  delete_content numeric d args = Some (d', changes) -> wf d -> wf d'.
Proof.
  unfold delete_content.
  destruct (bind args 1) as [[|v [|]]|]; try discriminate.
  intros [= <- _] [Hc Hr]. split; simpl; [|assumption].
  now apply (wf_table_delete numeric c_id v).
Qed.

Lemma delete_review_wf d args d' changes :
  delete_review numeric d args = Some (d', changes) -> wf d -> wf d'.
Proof.
  unfold delete_review.
  destruct (bind args 1) as [[|v [|]]|]; try discriminate.
  intros [= <- _] [Hc Hr]. split; simpl; [assumption|].
  now apply (wf_table_delete numeric r_id v).
Qed.

Lemma handle_wf env d call : wf d -> wf (fst (handle numeric env d call)).
Proof.
  intros Hwf. destruct call as [[now r] req].
  destruct r; simpl; try assumption.
  - unfold post_content.
    destruct (Js.strict_neq _ _); [assumption|].
    destruct (_ || _); [assumption|].
    destruct (insert_content _ _ _) as [[d' id]|] eqn:E; [|assumption].
    simpl. eapply insert_content_wf; eassumption.
  - unfold delete_content_route.
    destruct (Js.strict_neq _ _); [assumption|].
    destruct (delete_content _ _ _) as [[d' ch]|] eqn:E; [|assumption].
    apply delete_content_wf in E; [|assumption].
    now destruct (ch =? 0).
  - unfold delete_review_route.
    destruct (delete_review _ _ _) as [[d' ch]|] eqn:E; [|assumption].
    apply delete_review_wf in E; [|assumption].
    now destruct (ch =? 0).
  - unfold post_review.
    destruct (_ || _); [assumption|].
    destruct (insert_review _ _ _) as [[d' id]|] eqn:E; [|assumption].
    simpl. eapply insert_review_wf; eassumption.
Qed.

Lemma serve_wf env calls d : wf d -> wf (serve numeric env d calls).
Proof.
  revert d. induction calls as [|call calls IH]; intros d Hwf; simpl.
  - assumption.
  - apply IH. now apply handle_wf.
Qed.

End Reachable.

(** ** The DELETE routes, branch by branch *)

Section DeleteRoutes.

Variable numeric : string -> option Z.

Lemma bind_text (s : string) : bind [Js.Str s] 1 = Some [Text s].
Proof. reflexivity. Qed.

Lemma header_mismatch (h : option string) (s : string) :
  h <> Some s -> Js.strict_neq (Js.header h) s = true.
Proof.
  intros Hne. apply strict_neq_other. destruct h as [t|]; simpl.
  - intros [= ->]. now elim Hne.
  - discriminate.
Qed.

Lemma delete_content_route_unauthorized env d req id :
  x_admin_key req <> Some (admin_secret env) ->
  delete_content_route numeric env d req id = (d, res_error 401 "Unauthorized").
Proof.
  intros Hkey. unfold delete_content_route.
  now rewrite (header_mismatch _ _ Hkey).
Qed.

Lemma delete_content_route_absent env d req id :
  x_admin_key req = Some (admin_secret env) ->
  (forall r, In r (rows (content d)) -> numeric id <> Some (c_id r)) ->
  delete_content_route numeric env d req id =
  (d, res_error 404 "Content not found").
Proof.
  intros Hkey Habs. unfold delete_content_route.
  rewrite Hkey. cbn [Js.header]. rewrite strict_neq_same.
  unfold delete_content. rewrite bind_text.
  rewrite (delete_where_absent numeric c_id id _ Habs).
  now destruct d.
Qed.

Lemma delete_content_route_present env d req id r :
  wf d ->
  x_admin_key req = Some (admin_secret env) ->
  In r (rows (content d)) -> numeric id = Some (c_id r) ->
  exists l1 l2,
    rows (content d) = l1 ++ r :: l2 /\
    delete_content_route numeric env d req id =
    (mk_db (mk_table (l1 ++ l2) (seq (content d))) (reviews d),
     res_json Success).
Proof.
  intros [[Hnd _] _] Hkey Hin Hid.
  destruct (in_split _ _ Hin) as [l1 [l2 Hrows]].
  exists l1, l2. split; [assumption|].
  unfold delete_content_route.
  rewrite Hkey. cbn [Js.header]. rewrite strict_neq_same.
  unfold delete_content. rewrite bind_text.
  now rewrite (delete_where_present numeric c_id id _ r l1 l2 Hnd Hrows Hid).
Qed.

Lemma delete_review_route_absent d req id :
  (forall r, In r (rows (reviews d)) -> numeric id <> Some (r_id r)) ->
  delete_review_route numeric d req id =
  (d, res_error 404 "Review not found").
Proof.
  intros Habs. unfold delete_review_route, delete_review. rewrite bind_text.
  rewrite (delete_where_absent numeric r_id id _ Habs).
  now destruct d.
Qed.

Lemma delete_review_route_present d req id r :
  wf d ->
  In r (rows (reviews d)) -> numeric id = Some (r_id r) ->
  exists l1 l2,
    rows (reviews d) = l1 ++ r :: l2 /\
    delete_review_route numeric d req id =
    (mk_db (content d) (mk_table (l1 ++ l2) (seq (reviews d))),
     res_json Success).
Proof.
  intros [_ [Hnd _]] Hin Hid.
  destruct (in_split _ _ Hin) as [l1 [l2 Hrows]].
  exists l1, l2. split; [assumption|].
  unfold delete_review_route, delete_review. rewrite bind_text.
  now rewrite (delete_where_present numeric r_id id _ r l1 l2 Hnd Hrows Hid).
Qed.

End DeleteRoutes.

Lemma wf_one_each : wf one_each.
Proof.
  repeat split; simpl; try lia;
    repeat constructor; simpl; try tauto; lia.
Qed.

Lemma split_singleton {R : Type} (r : R) (l1 l2 : list R) :
  [r] = l1 ++ r :: l2 -> l1 ++ l2 = [].
Proof.
  destruct l1 as [|x [|y l1]]; simpl.
  - now intros [= <-].
  - discriminate.
  - discriminate.
Qed.

(** ** Deleting a work *)

(** C1: with the right admin secret in the [x-admin-key] header,
    [DELETE /api/content/:id] answers 404 with an error message and leaves
    the store as it was (so the row count is the same) when no row has
    that id, and answers 200 [{success: true}] with exactly the row of that
    id taken out of the table when there is one. *)
Theorem delete_content_by_id
  (numeric : string -> option Z) env d req id :
  wf d ->
  x_admin_key req = Some (admin_secret env) ->
  ((forall r, In r (rows (content d)) -> numeric id <> Some (c_id r)) ->
   delete_content_route numeric env d req id =
   (d, mk_response 404 (ErrorMsg "Content not found")))
  /\
  (forall r, In r (rows (content d)) -> numeric id = Some (c_id r) ->
   exists l1 l2,
     rows (content d) = l1 ++ r :: l2 /\
     delete_content_route numeric env d req id =
     (mk_db (mk_table (l1 ++ l2) (seq (content d))) (reviews d),
      mk_response 200 Success)).
Proof.
  intros Hwf Hkey. split.
  - now apply delete_content_route_absent.
  - intros r. now apply delete_content_route_present.
Qed.

Lemma delete_content_by_id_witness :
  wf one_each /\
  x_admin_key (with_key (Some "jaxelricweb")) = Some (admin_secret None) /\
  delete_content_route decimal None one_each
    (with_key (Some "jaxelricweb")) "999" =
  (one_each, mk_response 404 (ErrorMsg "Content not found")) /\
  delete_content_route decimal None one_each
    (with_key (Some "jaxelricweb")) "1" =
  (mk_db (mk_table [] 1) (mk_table [ann_row 5] 1), mk_response 200 Success).
Proof.
  split; [exact wf_one_each|]. split; [reflexivity|]. split.
  - apply (delete_content_by_id decimal None one_each
             (with_key (Some "jaxelricweb")) "999" wf_one_each eq_refl).
    intros r [<- | []]. vm_compute. discriminate.
  - destruct (proj2 (delete_content_by_id decimal None one_each
                       (with_key (Some "jaxelricweb")) "1" wf_one_each eq_refl)
                dawn_row (or_introl eq_refl) eq_refl)
      as [l1 [l2 [Hsplit Hres]]].
    rewrite Hres. simpl in Hsplit.
    now rewrite (split_singleton _ _ _ Hsplit).
Defined.

(** ** The admin secret *)

(** C2: whatever the request body, creating or deleting a work with an
    admin secret other than the configured one answers 401 Unauthorized
    and leaves the store, hence the content table, as it was. *)
Theorem wrong_secret_is_unauthorized
  (numeric : string -> option Z) env now d req id :
  (Js.get (body req) "adminKey" <> Js.Str (admin_secret env) ->
   post_content env now d req =
   (d, mk_response 401 (ErrorMsg "Unauthorized")))
  /\
  (x_admin_key req <> Some (admin_secret env) ->
   delete_content_route numeric env d req id =
   (d, mk_response 401 (ErrorMsg "Unauthorized"))).
Proof.
  split.
  - apply post_content_unauthorized.
  - apply delete_content_route_unauthorized.
Qed.

Lemma wrong_secret_is_unauthorized_witness :
  post_content None 10 one_each (dawn "wrong") =
  (one_each, mk_response 401 (ErrorMsg "Unauthorized")) /\
  delete_content_route decimal None one_each (dawn "wrong") "1" =
  (one_each, mk_response 401 (ErrorMsg "Unauthorized")).
Proof.
  split.
  - apply (wrong_secret_is_unauthorized decimal None 10 one_each
             (dawn "wrong") "1").
    discriminate.
  - apply (wrong_secret_is_unauthorized decimal None 10 one_each
             (dawn "wrong") "1").
    discriminate.
Defined.

(** C10: on [POST /api/content] the secret is checked before the fields:
    a request whose [adminKey] is not the configured secret is answered
    401 whatever its title, body and type, and a 400 answer is given only
    to a request with the matching secret. *)
Theorem secret_check_precedes_validation env now d req :
  (Js.get (body req) "adminKey" <> Js.Str (admin_secret env) ->
   post_content env now d req =
   (d, mk_response 401 (ErrorMsg "Unauthorized")))
  /\
  (status (snd (post_content env now d req)) = 400 ->
   Js.get (body req) "adminKey" = Js.Str (admin_secret env)).
Proof.
  split.
  - apply post_content_unauthorized.
  - apply post_content_status_400.
Qed.

Lemma secret_check_precedes_validation_witness :
  post_content None 10 one_each
    (mk_request None [("adminKey", Js.Str "wrong")]) =
  (one_each, mk_response 401 (ErrorMsg "Unauthorized")) /\
  Js.get [("title", Js.Str "Dawn"); ("adminKey", Js.Str "jaxelricweb")]
    "adminKey" = Js.Str (admin_secret None).
Proof.
  split.
  - apply (secret_check_precedes_validation None 10 one_each
             (mk_request None [("adminKey", Js.Str "wrong")])).
    discriminate.
  - apply (secret_check_precedes_validation None 10 one_each
             (mk_request None
                [("title", Js.Str "Dawn"); ("adminKey", Js.Str "jaxelricweb")])).
    reflexivity.
Defined.

(** ** Creating a work *)

(** C4: with the right admin secret, a [POST /api/content] request whose
    title, body or type is missing or empty is answered 400 with a
    validation error, and the store (so the row count of the content
    table) is as it was. *)
Theorem missing_field_is_rejected env now d req :
  Js.get (body req) "adminKey" = Js.Str (admin_secret env) ->
  missing_or_empty (Js.get (body req) "title") \/
  missing_or_empty (Js.get (body req) "body") \/
  missing_or_empty (Js.get (body req) "type") ->
  post_content env now d req =
  (d, mk_response 400 (ErrorMsg "Missing fields")).
Proof.
  intros Hkey Hmiss. apply post_content_missing; [assumption|].
  destruct Hmiss as [H | [H | H]]; rewrite (not_missing_or_empty _ H);
    rewrite ?orb_true_r; reflexivity.
Qed.

Lemma missing_field_is_rejected_witness :
  post_content None 10 one_each
    (mk_request None
       [("title", Js.Str "Dawn"); ("body", Js.Str "");
        ("adminKey", Js.Str "jaxelricweb")]) =
  (one_each, mk_response 400 (ErrorMsg "Missing fields")).
Proof.
  apply missing_field_is_rejected.
  - reflexivity.
  - right. left. right. reflexivity.
Defined.

(** C5: with the right admin secret and a non-empty title, body and type,
    [POST /api/content] appends one row holding those values and the
    optional attachment, under the next key of the table, which no
    existing row has, and answers 200 with exactly that key. *)
Theorem create_work_inserts_row env now d req t b k :
  wf d ->
  Js.get (body req) "adminKey" = Js.Str (admin_secret env) ->
  present (Js.get (body req) "title") t ->
  present (Js.get (body req) "body") b ->
  present (Js.get (body req) "type") k ->
  optional_text (Js.get (body req) "pdfData") ->
  exists row,
    post_content env now d req =
    (mk_db (mk_table (rows (content d) ++ [row]) (c_id row)) (reviews d),
     mk_response 200 (Id (c_id row))) /\
    c_title row = Text t /\ c_body row = Text b /\ c_type row = Text k /\
    c_pdf_data row = attachment (Js.get (body req) "pdfData") /\
    c_created_at row = now /\
    c_id row = seq (content d) + 1 /\
    ~ In (c_id row) (map c_id (rows (content d))).
Proof.
  intros [Hwf _] Hkey Ht Hb Hk Hpdf.
  exists (mk_content (seq (content d) + 1) (Text t) (Text b) (Text k)
            (attachment (Js.get (body req) "pdfData")) now).
  split.
  - apply (post_content_texts env now d req t b k); assumption.
  - cbn [c_id c_title c_body c_type c_pdf_data c_created_at].
    repeat split. now apply fresh_key.
Qed.

Lemma create_work_inserts_row_witness :
  wf empty /\
  exists row,
    post_content None 10 empty (dawn "jaxelricweb") =
    (mk_db (mk_table [row] (c_id row)) (mk_table [] 0),
     mk_response 200 (Id (c_id row))) /\
    c_title row = Text "Dawn" /\ c_id row = 1.
Proof.
  split; [exact wf_empty|].
  destruct (create_work_inserts_row None 10 empty (dawn "jaxelricweb")
              "Dawn" "First light." "poetry" wf_empty eq_refl)
    as [row [Hres [Ht [_ [_ [_ [_ [Hid _]]]]]]]].
  - split; [reflexivity | discriminate].
  - split; [reflexivity | discriminate].
  - split; [reflexivity | discriminate].
  - left. reflexivity.
  - exists row. repeat split; assumption.
Defined.

(** ** Listing *)

(** C6: in every state of the store, [GET /api/content] answers 200 with
    all the rows of the content table and [GET /api/reviews] with all the
    rows of the reviews table, each latest [created_at] first, and changes
    nothing; on an empty table the answer is the empty array. *)
Theorem lists_are_complete_and_newest_first d :
  (exists l,
     get_content d = (d, mk_response 200 (ContentRows l)) /\
     Permutation l (rows (content d)) /\
     StronglySorted (newest_first c_created_at) l) /\
  (exists l,
     get_reviews d = (d, mk_response 200 (ReviewRows l)) /\
     Permutation l (rows (reviews d)) /\
     StronglySorted (newest_first r_created_at) l) /\
  (rows (content d) = [] ->
   get_content d = (d, mk_response 200 (ContentRows []))) /\
  (rows (reviews d) = [] ->
   get_reviews d = (d, mk_response 200 (ReviewRows []))).
Proof.
  repeat split.
  - exists (select_content d). repeat split.
    + apply order_by_desc_perm.
    + apply order_by_desc_sorted.
  - exists (select_reviews d). repeat split.
    + apply order_by_desc_perm.
    + apply order_by_desc_sorted.
  - intros Hnil. unfold get_content, select_content. now rewrite Hnil.
  - intros Hnil. unfold get_reviews, select_reviews. now rewrite Hnil.
Qed.

(** ** Creating a review *)

(** C7: a [POST /api/reviews] request with a non-empty name and comment
    and no [rating] property inserts a review row whose rating is 5. *)
Theorem missing_rating_defaults_to_five now d req n c :
  present (Js.get (body req) "name") n ->
  present (Js.get (body req) "comment") c ->
  Js.get (body req) "rating" = Js.Undefined ->
  let id := seq (reviews d) + 1 in
  post_review now d req =
  (mk_db (content d)
     (mk_table
        (rows (reviews d) ++ [mk_review id (Text n) (Text c) (Integer 5) now])
        id),
   mk_response 200 (Id id)).
Proof.
  intros Hn Hc Hr. apply post_review_texts; try assumption.
  now rewrite Hr.
Qed.

Lemma missing_rating_defaults_to_five_witness :
  post_review 20 empty (ann []) =
  (mk_db (mk_table [] 0) (mk_table [ann_row 5] 1), mk_response 200 (Id 1)).
Proof.
  apply (missing_rating_defaults_to_five 20 empty (ann []) "Ann" "Lovely.").
  - split; [reflexivity | discriminate].
  - split; [reflexivity | discriminate].
  - reflexivity.
Defined.

(** C3, as the code has it: a review request with name and comment present
    has its rating stored exactly as supplied, with no range check,
    whenever the rating is a number other than 0; negative ratings and
    ratings above 5 are stored as they are. *)
Theorem nonzero_rating_stored_as_supplied now d req n c z :
  present (Js.get (body req) "name") n ->
  present (Js.get (body req) "comment") c ->
  Js.get (body req) "rating" = Js.Number z ->
  z <> 0 ->
  let id := seq (reviews d) + 1 in
  post_review now d req =
  (mk_db (content d)
     (mk_table
        (rows (reviews d) ++ [mk_review id (Text n) (Text c) (Integer z) now])
        id),
   mk_response 200 (Id id)).
Proof.
  intros Hn Hc Hr Hz. apply post_review_texts; try assumption.
  rewrite Hr. unfold Js.or. simpl.
  destruct (Z.eqb_spec z 0); [contradiction | reflexivity].
Qed.

Lemma nonzero_rating_stored_as_supplied_witness :
  post_review 20 empty (ann [("rating", Js.Number (-3))]) =
  (mk_db (mk_table [] 0) (mk_table [ann_row (-3)] 1), mk_response 200 (Id 1))
  /\
  post_review 20 empty (ann [("rating", Js.Number 9)]) =
  (mk_db (mk_table [] 0) (mk_table [ann_row 9] 1), mk_response 200 (Id 1)).
Proof.
  split.
  - apply (nonzero_rating_stored_as_supplied 20 empty
             (ann [("rating", Js.Number (-3))]) "Ann" "Lovely." (-3)).
    + split; [reflexivity | discriminate].
    + split; [reflexivity | discriminate].
    + reflexivity.
    + discriminate.
  - apply (nonzero_rating_stored_as_supplied 20 empty
             (ann [("rating", Js.Number 9)]) "Ann" "Lovely." 9).
    + split; [reflexivity | discriminate].
    + split; [reflexivity | discriminate].
    + reflexivity.
    + discriminate.
Defined.

(** C3, as stated, fails at rating 0: [rating || 5] takes 0 for an omitted
    rating, so the row gets rating 5. *)
Lemma rating_zero_is_stored_as_five :
  exists row,
    Js.get (body (ann [("rating", Js.Number 0)])) "rating" = Js.Number 0 /\
    post_review 20 empty (ann [("rating", Js.Number 0)]) =
    (mk_db (mk_table [] 0) (mk_table [row] 1), mk_response 200 (Id 1)) /\
    r_rating row = Integer 5 /\
    r_rating row <> Integer 0.
Proof.
  exists (ann_row 5). repeat split. discriminate.
Qed.

(** ** Deleting a review *)

(** C8: [DELETE /api/reviews/:id] reads no secret and no header: the
    answer is the one a request without any header gets, which is 200
    [{success: true}] with the row of that id taken out whenever a review
    row has that id, and 404 with an error, the store as it was, when
    none has. *)
Theorem delete_review_needs_no_secret
  (numeric : string -> option Z) d req id :
  wf d ->
  delete_review_route numeric d req id =
  delete_review_route numeric d (with_key None) id
  /\
  (forall r, In r (rows (reviews d)) -> numeric id = Some (r_id r) ->
   exists l1 l2,
     rows (reviews d) = l1 ++ r :: l2 /\
     delete_review_route numeric d req id =
     (mk_db (content d) (mk_table (l1 ++ l2) (seq (reviews d))),
      mk_response 200 Success))
  /\
  ((forall r, In r (rows (reviews d)) -> numeric id <> Some (r_id r)) ->
   delete_review_route numeric d req id =
   (d, mk_response 404 (ErrorMsg "Review not found"))).
Proof.
  intros Hwf. split; [reflexivity|]. split.
  - intros r. now apply delete_review_route_present.
  - now apply delete_review_route_absent.
Qed.

Lemma delete_review_needs_no_secret_witness :
  wf one_each /\
  delete_review_route decimal one_each (with_key None) "1" =
  (mk_db (mk_table [dawn_row] 1) (mk_table [] 1), mk_response 200 Success) /\
  delete_review_route decimal one_each (with_key (Some "wrong")) "7" =
  (one_each, mk_response 404 (ErrorMsg "Review not found")).
Proof.
  split; [exact wf_one_each|]. split.
  - destruct (proj1 (proj2 (delete_review_needs_no_secret decimal one_each
                              (with_key None) "1" wf_one_each))
                (ann_row 5) (or_introl eq_refl) eq_refl)
      as [l1 [l2 [Hsplit Hres]]].
    rewrite Hres. simpl in Hsplit.
    now rewrite (split_singleton _ _ _ Hsplit).
  - apply (delete_review_needs_no_secret decimal one_each
             (with_key (Some "wrong")) "7" wf_one_each).
    intros r [<- | []]. vm_compute. discriminate.
Defined.

(** ** Non-empty titles, bodies, names and comments *)

Lemma bind_args_scalar (args : list Js.value) (bound_object : bool) :
  forallb scalar args = true ->
  bind_args args bound_object = bind_array args.
Proof.
  induction args as [|v args IH]; simpl; [reflexivity|].
  intros H. apply andb_true_iff in H as [Hv Hargs].
  destruct v; try discriminate Hv; cbn [bind_value];
    try reflexivity; now rewrite IH.
Qed.

Lemma truthy_bound_nonempty (v : Js.value) (x : value) :
  Js.not v = false -> bind_value v = Some x -> nonempty x = true.
Proof.
  unfold Js.not. destruct v; simpl; try discriminate; intros Ht [= <-].
  - reflexivity.
  - simpl. now destruct (s =? "")%string.
Qed.

Lemma scalar_or (a b : Js.value) :
  scalar a = true -> scalar b = true -> scalar (Js.or a b) = true.
Proof. unfold Js.or. now destruct (Js.truthy a). Qed.

Lemma forallb_filter {R : Type} (p f : R -> bool) (l : list R) :
  forallb p l = true -> forallb p (filter f l) = true.
Proof.
  rewrite !forallb_forall. intros H x Hx.
  apply filter_In in Hx as [Hx _]. auto.
Qed.

Lemma forallb_snoc {R : Type} (p : R -> bool) (l : list R) (x : R) :
  forallb p l = true -> p x = true -> forallb p (l ++ [x]) = true.
Proof.
  intros Hl Hx. rewrite forallb_app, Hl. simpl. now rewrite Hx.
Qed.

Lemma post_content_scalars_nonempty env now d req :
  (forall k, scalar (Js.get (body req) k) = true) ->
  rows_nonempty d -> rows_nonempty (fst (post_content env now d req)).
Proof.
  intros Hsc Hd. unfold post_content.
  destruct (Js.strict_neq _ _); [assumption|].
  destruct (Js.not (Js.get (body req) "title")) eqn:Ht; [assumption|].
  destruct (Js.not (Js.get (body req) "body")) eqn:Hb; [assumption|].
  destruct (Js.not (Js.get (body req) "type")) eqn:Hk; [assumption|].
  cbn [orb]. unfold insert_content, bind.
  rewrite bind_args_scalar
    by (cbn [forallb]; rewrite !Hsc, scalar_or by (auto using Hsc);
        reflexivity).
  cbn [bind_array].
  destruct (bind_value (Js.get (body req) "title")) as [x1|] eqn:E1;
    [|assumption].
  destruct (bind_value (Js.get (body req) "body")) as [x2|] eqn:E2;
    [|assumption].
  destruct (bind_value (Js.get (body req) "type")) as [x3|] eqn:E3;
    [|assumption].
  destruct (bind_value (Js.or _ _)) as [x4|]; [|assumption].
  cbn [List.length Nat.eqb].
  destruct (_ && _); [|assumption].
  destruct Hd as [Hc Hr]. split; [|assumption]. cbn.
  apply forallb_snoc; [assumption|]. unfold content_nonempty. cbn.
  now rewrite (truthy_bound_nonempty _ _ Ht E1),
              (truthy_bound_nonempty _ _ Hb E2).
Qed.

Lemma post_review_scalars_nonempty now d req :
  (forall k, scalar (Js.get (body req) k) = true) ->
  rows_nonempty d -> rows_nonempty (fst (post_review now d req)).
Proof.
  intros Hsc Hd. unfold post_review.
  destruct (Js.not (Js.get (body req) "name")) eqn:Hn; [assumption|].
  destruct (Js.not (Js.get (body req) "comment")) eqn:Hc; [assumption|].
  cbn [orb]. unfold insert_review, bind.
  rewrite bind_args_scalar
    by (cbn [forallb]; rewrite !Hsc, scalar_or by (auto using Hsc);
        reflexivity).
  cbn [bind_array].
  destruct (bind_value (Js.get (body req) "name")) as [x1|] eqn:E1;
    [|assumption].
  destruct (bind_value (Js.get (body req) "comment")) as [x2|] eqn:E2;
    [|assumption].
  destruct (bind_value (Js.or _ _)) as [x3|]; [|assumption].
  cbn [List.length Nat.eqb].
  destruct (_ && _); [|assumption].
  destruct Hd as [Hcn Hr]. split; [assumption|]. cbn.
  apply forallb_snoc; [assumption|]. unfold review_nonempty. cbn.
  now rewrite (truthy_bound_nonempty _ _ Hn E1),
              (truthy_bound_nonempty _ _ Hc E2).
Qed.

Lemma delete_routes_nonempty (numeric : string -> option Z) env d req id :
  rows_nonempty d ->
  rows_nonempty (fst (delete_content_route numeric env d req id)) /\
  rows_nonempty (fst (delete_review_route numeric d req id)).
Proof.
  intros [Hc Hr]. split.
  - unfold delete_content_route.
    destruct (Js.strict_neq _ _); [now split|].
    unfold delete_content. rewrite bind_text. cbn.
    destruct (_ =? 0); split; cbn; auto using forallb_filter.
  - unfold delete_review_route, delete_review. rewrite bind_text. cbn.
    destruct (_ =? 0); split; cbn; auto using forallb_filter.
Qed.

(** Requests whose body properties are all scalars keep every stored title,
    body, name and comment non-empty. *)
Lemma scalar_calls_keep_rows_nonempty
  (numeric : string -> option Z) env calls d :
  Forall scalar_call calls ->
  rows_nonempty d -> rows_nonempty (serve numeric env d calls).
Proof.
  intros Hcalls. revert d.
  induction Hcalls as [|call calls Hcall _ IH]; intros d Hd; simpl;
    [assumption|].
  apply IH. destruct call as [[now r] req]. unfold scalar_call in Hcall.
  simpl in Hcall. destruct r; simpl; try assumption.
  - now apply post_content_scalars_nonempty.
  - now apply delete_routes_nonempty.
  - now apply delete_routes_nonempty.
  - now apply post_review_scalars_nonempty.
Qed.

(** C9, on the code: the presence checks [!title] and [!name] let an array
    through, and the driver binds the elements of an array argument as
    the statement's parameters, so the title [[""]] and the name [[""]]
    are each stored as the empty text by a request answered 200. *)
Theorem wrapped_empty_text_is_stored :
  (Js.not (Js.get (body wrapped_title) "title") = false /\
   exists row,
     post_content None 10 empty wrapped_title =
     (mk_db (mk_table [row] 1) (mk_table [] 0), mk_response 200 (Id 1)) /\
     c_title row = Text "" /\
     content_nonempty row = false)
  /\
  (Js.not (Js.get (body wrapped_name) "name") = false /\
   exists row,
     post_review 20 empty wrapped_name =
     (mk_db (mk_table [] 0) (mk_table [row] 1), mk_response 200 (Id 1)) /\
     r_name row = Text "" /\
     review_nonempty row = false)
  /\
  (rows_nonempty empty /\
   (rows_nonempty
      (serve decimal None empty [(10, POST_content, wrapped_title)]) ->
    False)).
Proof.
  split; [|split].
  - split; [reflexivity|].
    exists (mk_content 1 (Text "") (Text "First light.") (Text "poetry")
              Null 10).
    repeat split.
  - split; [reflexivity|].
    exists (mk_review 1 (Text "") (Text "Lovely.") (Integer 5) 20).
    repeat split.
  - split; [split; reflexivity|].
    intros [H _]. vm_compute in H. discriminate.
Qed.

(** ** Further properties of the routes *)

(** X1: a review request whose name or comment is falsy (absent, [null],
    [false], [0] or the empty text) is answered 400 "Missing fields" and
    the store is as it was. *)
Theorem review_missing_field_is_rejected now d req :
  Js.truthy (Js.get (body req) "name") = false \/
  Js.truthy (Js.get (body req) "comment") = false ->
  post_review now d req = (d, mk_response 400 (ErrorMsg "Missing fields")).
Proof.
  intros H. unfold post_review, Js.not.
  destruct H as [-> | ->]; cbn [negb orb]; rewrite ?orb_true_r; reflexivity.
Qed.

Lemma review_missing_field_is_rejected_witness :
  post_review 20 one_each
    (mk_request None [("name", Js.Str "Ann"); ("comment", Js.Str "")]) =
  (one_each, mk_response 400 (ErrorMsg "Missing fields")) /\
  post_review 20 one_each
    (mk_request None [("name", Js.Null); ("comment", Js.Str "Lovely.")]) =
  (one_each, mk_response 400 (ErrorMsg "Missing fields")).
Proof.
  split; apply review_missing_field_is_rejected.
  - right. reflexivity.
  - left. reflexivity.
Defined.

Lemma filter_same_length {R : Type} (f : R -> bool) (l : list R) :
  List.length (filter f l) = List.length l -> filter f l = l.
Proof.
  induction l as [|x l IH]; simpl; [reflexivity|].
  pose proof (filter_length_le f l) as Hle.
  destruct (f x); simpl; intros H.
  - f_equal. apply IH. lia.
  - lia.
Qed.

Lemma delete_where_no_change (numeric : string -> option Z) {R : Type}
  (key : R -> Z) (v : value) (t : table R) :
  snd (delete_where numeric key v t) = 0 ->
  fst (delete_where numeric key v t) = t.
Proof.
  unfold delete_where. simpl. intros H.
  rewrite filter_same_length by lia. now destruct t.
Qed.

Section RouteFacts.

Variable numeric : string -> option Z.

Lemma post_content_inv env now d req d1 i :
  post_content env now d req = (d1, mk_response 200 (Id i)) ->
  exists row,
    d1 = mk_db (mk_table (rows (content d) ++ [row]) i) (reviews d) /\
    c_id row = i /\ c_created_at row = now /\ i = seq (content d) + 1.
Proof.
  unfold post_content.
  destruct (Js.strict_neq _ _); [discriminate|].
  destruct (_ || _); [discriminate|].
  unfold insert_content.
  destruct (bind _ 4) as [[|t [|b [|k [|p [|]]]]]|]; try discriminate.
  destruct (_ && _); [|discriminate].
  intros [= <- <-]. eexists. repeat split.
Qed.

Lemma post_review_inv now d req d1 i :
  post_review now d req = (d1, mk_response 200 (Id i)) ->
  exists row,
    d1 = mk_db (content d) (mk_table (rows (reviews d) ++ [row]) i) /\
    r_id row = i /\ r_created_at row = now /\ i = seq (reviews d) + 1.
Proof.
  unfold post_review.
  destruct (_ || _); [discriminate|].
  unfold insert_review.
  destruct (bind _ 3) as [[|n [|c [|r [|]]]]|]; try discriminate.
  destruct (_ && _); [|discriminate].
  intros [= <- <-]. eexists. repeat split.
Qed.

Lemma handle_seq_content env d call :
  seq (content d) <= seq (content (fst (handle numeric env d call))).
Proof.
  destruct call as [[now r] req]. destruct r; simpl; try lia.
  - unfold post_content.
    destruct (Js.strict_neq _ _); [simpl; lia|].
    destruct (_ || _); [simpl; lia|].
    unfold insert_content.
    destruct (bind _ 4) as [[|t [|b [|k [|p [|]]]]]|]; simpl; try lia.
    destruct (_ && _); simpl; lia.
  - unfold delete_content_route.
    destruct (Js.strict_neq _ _); [simpl; lia|].
    unfold delete_content. rewrite bind_text. cbn.
    destruct (_ =? 0); simpl; lia.
  - unfold delete_review_route, delete_review. rewrite bind_text. cbn.
    destruct (_ =? 0); simpl; lia.
  - unfold post_review.
    destruct (_ || _); [simpl; lia|].
    unfold insert_review.
    destruct (bind _ 3) as [[|n [|c [|r [|]]]]|]; simpl; try lia.
    destruct (_ && _); simpl; lia.
Qed.

Lemma serve_seq_content env calls d :
  seq (content d) <= seq (content (serve numeric env d calls)).
Proof.
  revert d. induction calls as [|call calls IH]; intros d; simpl; [lia|].
  pose proof (handle_seq_content env d call).
  specialize (IH (fst (handle numeric env d call))). lia.
Qed.

End RouteFacts.

(** X2: every answer of the six routes carries one of the statuses 200, 400,
    401, 404 and 500, and a request answered with any status but 200
    leaves the whole store exactly as it was. *)
Theorem failed_request_changes_nothing
  (numeric : string -> option Z) env d call :
  sent_status (snd (handle numeric env d call)) = true /\
  (status (snd (handle numeric env d call)) <> 200 ->
   fst (handle numeric env d call) = d).
Proof.
  destruct call as [[now r] req]. destruct r; simpl.
  - split; [reflexivity | tauto].
  - unfold post_content.
    destruct (Js.strict_neq _ _); [split; reflexivity|].
    destruct (_ || _); [split; reflexivity|].
    destruct (insert_content _ _ _) as [[d' i]|];
      split; try reflexivity. simpl. tauto.
  - unfold delete_content_route.
    destruct (Js.strict_neq _ _); [split; reflexivity|].
    unfold delete_content. rewrite bind_text.
    pose proof (delete_where_no_change numeric c_id (Text id) (content d))
      as Hsame.
    destruct (delete_where _ _ _ _) as [t ch]. simpl in Hsame.
    destruct (Z.eqb_spec ch 0) as [Hch|Hch]; split; try reflexivity; simpl.
    + intros _. rewrite (Hsame Hch). now destruct d.
    + tauto.
  - unfold delete_review_route, delete_review. rewrite bind_text.
    pose proof (delete_where_no_change numeric r_id (Text id) (reviews d))
      as Hsame.
    destruct (delete_where _ _ _ _) as [t ch]. simpl in Hsame.
    destruct (Z.eqb_spec ch 0) as [Hch|Hch]; split; try reflexivity; simpl.
    + intros _. rewrite (Hsame Hch). now destruct d.
    + tauto.
  - split; [reflexivity | tauto].
  - unfold post_review.
    destruct (_ || _); [split; reflexivity|].
    destruct (insert_review _ _ _) as [[d' i]|];
      split; try reflexivity. simpl. tauto.
Qed.

(** X3: whatever requests are served from the fresh database on, the keys of
    each table stay distinct, positive and at most the table's sequence
    value. *)
Theorem reachable_store_keeps_keys_distinct
  (numeric : string -> option Z) env calls :
  wf (serve numeric env empty calls).
Proof. apply serve_wf. exact wf_empty. Qed.

(** X4: a work key is never handed out twice: a creation answered after an
    earlier one, with any requests served in between (deletions of the
    earlier work included), gets a strictly larger id. *)
Theorem work_ids_are_never_reused
  (numeric : string -> option Z) env now1 now2 d req1 req2 calls d1 d2 i j :
  post_content env now1 d req1 = (d1, mk_response 200 (Id i)) ->
  post_content env now2 (serve numeric env d1 calls) req2 =
  (d2, mk_response 200 (Id j)) ->
  i < j.
Proof.
  intros H1 H2.
  apply post_content_inv in H1 as [row1 [-> [_ [_ _]]]].
  apply post_content_inv in H2 as [row2 [_ [_ [_ ->]]]].
  match goal with
  | |- _ < seq (content (serve _ _ ?d0 _)) + 1 =>
      pose proof (serve_seq_content numeric env calls d0) as Hmono
  end.
  simpl in Hmono. lia.
Qed.

Lemma work_ids_are_never_reused_witness :
  post_content None 10 empty (dawn "jaxelricweb") =
  (mk_db (mk_table [dawn_row] 1) (mk_table [] 0), mk_response 200 (Id 1)) /\
  1 < 2.
Proof.
  split; [reflexivity|].
  apply (work_ids_are_never_reused decimal None 10 30 empty
           (dawn "jaxelricweb") (dawn "jaxelricweb")
           [(20, DELETE_content "1", with_key (Some "jaxelricweb"))]
           (mk_db (mk_table [dawn_row] 1) (mk_table [] 0))
           (mk_db
              (mk_table
                 [mk_content 2 (Text "Dawn") (Text "First light.")
                    (Text "poetry") Null 30] 2)
              (mk_table [] 0))
           1 2); reflexivity.
Defined.

(** X5: deleting the same work a second time, with the right secret, is
    answered 404 and changes nothing more, whatever the first deletion
    found. *)
Theorem second_delete_is_not_found
  (numeric : string -> option Z) env d req id :
  x_admin_key req = Some (admin_secret env) ->
  delete_content_route numeric env
    (fst (delete_content_route numeric env d req id)) req id =
  (fst (delete_content_route numeric env d req id),
   mk_response 404 (ErrorMsg "Content not found")).
Proof.
  intros Hkey. apply delete_content_route_absent; [assumption|].
  intros r Hr Hid. revert Hr.
  unfold delete_content_route.
  rewrite Hkey. cbn [Js.header]. rewrite strict_neq_same.
  unfold delete_content. rewrite bind_text. cbn.
  assert (forall d',
    In r (rows (content d')) ->
    rows (content d') =
    filter (fun r => negb (id_equals numeric (c_id r) (Text id)))
      (rows (content d)) -> False) as Hno.
  { intros d' Hin Hrows. rewrite Hrows in Hin.
    apply filter_In in Hin as [_ Hneg].
    rewrite (proj2 (id_equals_text numeric (c_id r) id) Hid) in Hneg.
    discriminate. }
  destruct (_ =? 0); intros Hr; now apply (Hno _ Hr).
Qed.

Lemma second_delete_is_not_found_witness :
  delete_content_route decimal None
    (mk_db (mk_table [] 1) (mk_table [ann_row 5] 1))
    (with_key (Some "jaxelricweb")) "1" =
  (mk_db (mk_table [] 1) (mk_table [ann_row 5] 1),
   mk_response 404 (ErrorMsg "Content not found")).
Proof.
  exact (second_delete_is_not_found decimal None one_each
           (with_key (Some "jaxelricweb")) "1" eq_refl).
Defined.

Lemma newest_is_first {R : Type} (key : R -> Z) (row : R) (old l : list R) :
  Permutation l (old ++ [row]) ->
  StronglySorted (newest_first key) l ->
  (forall r, In r old -> key r < key row) ->
  hd_error l = Some row.
Proof.
  intros Hperm Hsorted Hold.
  assert (In row l) as Hin.
  { apply (Permutation_in _ (Permutation_sym Hperm)).
    apply in_or_app. right. now left. }
  destruct l as [|x l]; [contradiction|].
  simpl. f_equal.
  assert (In x (old ++ [row])) as Hx
    by (apply (Permutation_in _ Hperm); now left).
  apply in_app_or in Hx as [Hx | [Hx | []]]; [|now symmetry].
  destruct Hin as [Hin | Hin]; [assumption|].
  inversion Hsorted as [|? ? _ Hall]; subst.
  rewrite Forall_forall in Hall. specialize (Hall row Hin).
  unfold newest_first in Hall. specialize (Hold x Hx). lia.
Qed.

(** X6: a work the server accepted is in the next listing, which is one row
    longer than the table was; when its timestamp is later than that of
    every row already stored, it is the first row of the listing. *)
Theorem created_work_is_listed env now d req d1 i :
  post_content env now d req = (d1, mk_response 200 (Id i)) ->
  exists row l,
    c_id row = i /\ c_created_at row = now /\
    get_content d1 = (d1, mk_response 200 (ContentRows l)) /\
    In row l /\
    List.length l = S (List.length (rows (content d))) /\
    ((forall r, In r (rows (content d)) -> c_created_at r < now) ->
     hd_error l = Some row).
Proof.
  intros H. apply post_content_inv in H as [row [-> [Hid [Hnow _]]]].
  exists row, (order_by_desc c_created_at (rows (content d) ++ [row])).
  pose proof (order_by_desc_perm c_created_at (rows (content d) ++ [row]))
    as Hperm.
  repeat split; try assumption.
  - apply (Permutation_in _ (Permutation_sym Hperm)).
    apply in_or_app. right. now left.
  - rewrite (Permutation_length Hperm), length_app. simpl. lia.
  - intros Hold. apply (newest_is_first c_created_at row (rows (content d)));
      [assumption | apply order_by_desc_sorted |].
    intros r Hr. rewrite Hnow. now apply Hold.
Qed.

Lemma created_work_is_listed_witness :
  exists row l,
    c_id row = 2 /\ c_created_at row = 30 /\
    get_content
      (mk_db (mk_table [dawn_row; mk_content 2 (Text "Dawn")
                          (Text "First light.") (Text "poetry") Null 30] 2)
         (mk_table [ann_row 5] 1)) =
    (mk_db (mk_table [dawn_row; mk_content 2 (Text "Dawn")
                        (Text "First light.") (Text "poetry") Null 30] 2)
       (mk_table [ann_row 5] 1),
     mk_response 200 (ContentRows l)) /\
    hd_error l = Some row.
Proof.
  destruct (created_work_is_listed None 30 one_each (dawn "jaxelricweb")
              (mk_db (mk_table [dawn_row; mk_content 2 (Text "Dawn")
                                  (Text "First light.") (Text "poetry")
                                  Null 30] 2)
                 (mk_table [ann_row 5] 1))
              2 eq_refl)
    as [row [l [Hid [Hnow [Hget [_ [_ Hhd]]]]]]].
  exists row, l. repeat split; try assumption.
  apply Hhd. intros r [<- | []]. simpl. lia.
Defined.

(** X7: deleting a work just created, by the id the creation answered, gives
    back the rows the table had before; only the sequence value has moved
    on. *)
Theorem delete_undoes_create
  (numeric : string -> option Z) env now d req d1 i del s :
  wf d ->
  post_content env now d req = (d1, mk_response 200 (Id i)) ->
  x_admin_key del = Some (admin_secret env) ->
  numeric s = Some i ->
  delete_content_route numeric env d1 del s =
  (mk_db (mk_table (rows (content d)) i) (reviews d),
   mk_response 200 Success).
Proof.
  intros Hwf Hpost Hkey Hs.
  destruct (post_content_inv _ _ _ _ _ _ Hpost)
    as [row [Hd1 [Hid [_ Hseq]]]].
  assert (wf d1) as Hwf1.
  { pose proof (handle_wf numeric env d (now, POST_content, req) Hwf) as H.
    simpl in H. now rewrite Hpost in H. }
  assert (In row (rows (content d1))) as Hin.
  { rewrite Hd1. simpl. apply in_or_app. right. now left. }
  rewrite <- Hid in Hs.
  destruct (delete_content_route_present numeric env d1 del s row
              Hwf1 Hkey Hin Hs) as [l1 [l2 [Hsplit Hres]]].
  rewrite Hres. rewrite Hd1 in Hsplit |- *. simpl in Hsplit |- *.
  assert (l2 = [] /\ l1 = rows (content d)) as [-> ->].
  { destruct Hwf1 as [[Hnd _] _]. rewrite Hd1 in Hnd. simpl in Hnd.
    destruct l2 as [|y l2] using rev_ind.
    - apply app_inj_tail in Hsplit as [-> _]. now split.
    - clear IHl2. rewrite app_comm_cons, app_assoc in Hsplit.
      apply app_inj_tail in Hsplit as [Hrows <-].
      rewrite Hrows, !map_app in Hnd. simpl in Hnd.
      rewrite <- app_assoc in Hnd. simpl in Hnd.
      apply NoDup_remove_2 in Hnd. elim Hnd.
      apply in_or_app. right. apply in_or_app. right. now left. }
  now rewrite app_nil_r.
Qed.

Lemma delete_undoes_create_witness :
  wf empty /\
  delete_content_route decimal None
    (mk_db (mk_table [dawn_row] 1) (mk_table [] 0))
    (with_key (Some "jaxelricweb")) "1" =
  (mk_db (mk_table [] 1) (mk_table [] 0), mk_response 200 Success).
Proof.
  split; [exact wf_empty|].
  exact (delete_undoes_create decimal None 10 empty (dawn "jaxelricweb")
           (mk_db (mk_table [dawn_row] 1) (mk_table [] 0)) 1
           (with_key (Some "jaxelricweb")) "1"
           wf_empty eq_refl eq_refl eq_refl).
Defined.

(** X8: the content routes never touch the reviews table, the review routes
    never touch the content table, and the two listings change nothing. *)
Theorem routes_keep_to_their_table
  (numeric : string -> option Z) env now d req id :
  reviews (fst (post_content env now d req)) = reviews d /\
  reviews (fst (delete_content_route numeric env d req id)) = reviews d /\
  content (fst (post_review now d req)) = content d /\
  content (fst (delete_review_route numeric d req id)) = content d /\
  fst (get_content d) = d /\
  fst (get_reviews d) = d.
Proof.
  repeat split.
  - unfold post_content.
    destruct (Js.strict_neq _ _); [reflexivity|].
    destruct (_ || _); [reflexivity|].
    unfold insert_content.
    destruct (bind _ 4) as [[|t [|b [|k [|p [|]]]]]|]; try reflexivity.
    now destruct (_ && _).
  - unfold delete_content_route.
    destruct (Js.strict_neq _ _); [reflexivity|].
    unfold delete_content. rewrite bind_text. cbn.
    now destruct (_ =? 0).
  - unfold post_review.
    destruct (_ || _); [reflexivity|].
    unfold insert_review.
    destruct (bind _ 3) as [[|n [|c [|r [|]]]]|]; try reflexivity.
    now destruct (_ && _).
  - unfold delete_review_route, delete_review. rewrite bind_text. cbn.
    now destruct (_ =? 0).
Qed.

(** X9: an empty or absent admin key is refused by both content routes under
    every configuration, an [ADMIN_SECRET] set to the empty text
    included. *)
Theorem empty_admin_key_is_refused
  (numeric : string -> option Z) env now d req id :
  (Js.get (body req) "adminKey" = Js.Str "" \/
   Js.get (body req) "adminKey" = Js.Undefined ->
   post_content env now d req =
   (d, mk_response 401 (ErrorMsg "Unauthorized")))
  /\
  (x_admin_key req = Some "" \/ x_admin_key req = None ->
   delete_content_route numeric env d req id =
   (d, mk_response 401 (ErrorMsg "Unauthorized"))).
Proof.
  pose proof (admin_secret_nonempty env) as Hne. split.
  - intros H. apply post_content_unauthorized.
    destruct H as [-> | ->]; [|discriminate].
    intros [= E]. now elim Hne.
  - intros H. apply delete_content_route_unauthorized.
    destruct H as [-> | ->]; [|discriminate].
    intros [= E]. now elim Hne.
Qed.

Lemma empty_admin_key_is_refused_witness :
  post_content (Some "") 10 one_each (dawn "") =
  (one_each, mk_response 401 (ErrorMsg "Unauthorized")) /\
  delete_content_route decimal (Some "") one_each (with_key None) "1" =
  (one_each, mk_response 401 (ErrorMsg "Unauthorized")).
Proof.
  split.
  - apply (proj1 (empty_admin_key_is_refused decimal (Some "") 10 one_each
                    (dawn "") "1")).
    left. reflexivity.
  - apply (proj2 (empty_admin_key_is_refused decimal (Some "") 10 one_each
                    (with_key None) "1")).
    right. reflexivity.
Defined.

Section OneRow.

Variable numeric : string -> option Z.

Lemma id_equals_same_key (k1 k2 : Z) (v : value) :
  id_equals numeric k1 v = true -> id_equals numeric k2 v = true -> k1 = k2.
Proof.
  destruct v as [|z|s]; simpl; try discriminate.
  - rewrite !Z.eqb_eq. congruence.
  - destruct (numeric s); [|discriminate].
    rewrite !Z.eqb_eq. congruence.
Qed.

Lemma delete_where_one_row {R : Type} (key : R -> Z) (v : value) (l : list R) :
  NoDup (map key l) ->
  (List.length l <=
   S (List.length (filter (fun r => negb (id_equals numeric (key r) v)) l)))%nat.
Proof.
  induction l as [|x l IH]; simpl; intros Hnd; [lia|].
  inversion Hnd as [|? ? Hx Hl]; subst.
  destruct (id_equals numeric (key x) v) eqn:Ex; simpl.
  - rewrite filter_all; [lia|].
    intros r Hr. destruct (id_equals numeric (key r) v) eqn:Er; [|reflexivity].
    elim Hx. rewrite (id_equals_same_key _ _ _ Ex Er). now apply in_map.
  - specialize (IH Hl). lia.
Qed.

Lemma delete_where_rows {R : Type} (key : R -> Z) (v : value) (t : table R) :
  NoDup (map key (rows t)) ->
  let kept := rows (fst (delete_where numeric key v t)) in
  (List.length kept <= List.length (rows t) <= S (List.length kept))%nat.
Proof.
  intros Hnd. simpl. split.
  - apply filter_length_le.
  - now apply delete_where_one_row.
Qed.

End OneRow.

(** X10: on a store with distinct keys, one request adds at most one row to a
    table and removes at most one. *)
Theorem request_moves_one_row_at_most
  (numeric : string -> option Z) env d call :
  wf d ->
  let d' := fst (handle numeric env d call) in
  Z.abs (Z.of_nat (List.length (rows (content d')))
         - Z.of_nat (List.length (rows (content d)))) <= 1 /\
  Z.abs (Z.of_nat (List.length (rows (reviews d')))
         - Z.of_nat (List.length (rows (reviews d)))) <= 1.
Proof.
  intros [[Hc _] [Hr _]]. destruct call as [[now r] req].
  destruct r; simpl; try (split; lia).
  - unfold post_content.
    destruct (Js.strict_neq _ _); [simpl; split; lia|].
    destruct (_ || _); [simpl; split; lia|].
    unfold insert_content.
    destruct (bind _ 4) as [[|t [|b [|k [|p [|]]]]]|];
      try (simpl; split; lia).
    destruct (_ && _); simpl; [|split; lia].
    rewrite length_app. simpl. split; lia.
  - unfold delete_content_route.
    destruct (Js.strict_neq _ _); [simpl; split; lia|].
    unfold delete_content. rewrite bind_text.
    pose proof (delete_where_rows numeric c_id (Text id) (content d) Hc) as H.
    destruct (delete_where _ _ _ _) as [t ch]. simpl in H.
    destruct (ch =? 0); simpl; split; lia.
  - unfold delete_review_route, delete_review. rewrite bind_text.
    pose proof (delete_where_rows numeric r_id (Text id) (reviews d) Hr) as H.
    destruct (delete_where _ _ _ _) as [t ch]. simpl in H.
    destruct (ch =? 0); simpl; split; lia.
  - unfold post_review.
    destruct (_ || _); [simpl; split; lia|].
    unfold insert_review.
    destruct (bind _ 3) as [[|n [|c [|r [|]]]]|];
      try (simpl; split; lia).
    destruct (_ && _); simpl; [|split; lia].
    rewrite length_app. simpl. split; lia.
Qed.

Lemma request_moves_one_row_at_most_witness :
  wf one_each /\
  Z.abs (Z.of_nat 0 - Z.of_nat 1) <= 1 /\ Z.abs (Z.of_nat 1 - Z.of_nat 1) <= 1.
Proof.
  split; [exact wf_one_each|].
  exact (request_moves_one_row_at_most decimal None one_each
           (20, DELETE_content "1", with_key (Some "jaxelricweb"))
           wf_one_each).
Defined.

Lemma scalar_calls_keep_rows_nonempty_witness :
  Forall scalar_call
    [(10, POST_content, dawn "jaxelricweb"); (20, POST_reviews, ann [])] /\
  rows_nonempty empty /\
  rows_nonempty
    (serve decimal None empty
       [(10, POST_content, dawn "jaxelricweb"); (20, POST_reviews, ann [])]).
Proof.
  assert (forall props,
            (forall k v, In (k, v) props -> scalar v = true) ->
            forall k, scalar (Js.get props k) = true) as Hget.
  { induction props as [|[k' v'] props IH]; intros Hall k; simpl.
    - reflexivity.
    - destruct (k' =? k)%string.
      + apply (Hall k'). now left.
      + apply IH. intros k0 v0 Hin. apply (Hall k0). now right. }
  assert (Forall scalar_call
            [(10, POST_content, dawn "jaxelricweb");
             (20, POST_reviews, ann [])]) as Hcalls.
  { apply Forall_cons; [|apply Forall_cons; [|apply Forall_nil]];
      unfold scalar_call; intros k0; apply Hget;
      simpl; intros k v H;
      repeat (destruct H as [[= <- <-] | H]; [reflexivity|]);
      contradiction. }
  assert (rows_nonempty empty) as Hempty by (split; reflexivity).
  split; [exact Hcalls|]. split; [exact Hempty|].
  exact (scalar_calls_keep_rows_nonempty decimal None _ empty Hcalls Hempty).
Defined.

(** ** The page *)

(** X12: the five stars of a review show its rating cut to the range from 0 to
    5: that many filled stars first, the rest empty. *)
Theorem stars_show_the_rating_cut_to_five (rating : Z) :
  let n := Z.to_nat (Z.min 5 (Z.max 0 rating)) in
  Client.stars rating = repeat true n ++ repeat false (5 - n).
Proof.
  intros n. subst n. unfold Client.stars. cbn [map].
  assert (rating <= 0 \/ rating = 1 \/ rating = 2 \/ rating = 3 \/
          rating = 4 \/ 5 <= rating) as Hcases by lia.
  destruct Hcases as [H | [-> | [-> | [-> | [-> | H]]]]];
    try reflexivity.
  - replace (Z.to_nat (Z.min 5 (Z.max 0 rating))) with 0%nat by lia.
    now rewrite !(proj2 (Z.ltb_ge _ _)) by lia.
  - replace (Z.to_nat (Z.min 5 (Z.max 0 rating))) with 5%nat by lia.
    now rewrite !(proj2 (Z.ltb_lt _ _)) by lia.
Qed.

Lemma kind_name_nonempty (k : Client.kind) : Client.kind_name k <> "".
Proof. destruct k; discriminate. Qed.

Lemma kind_name_shown (k : Client.kind) c :
  c_type c = Text (Client.kind_name k) ->
  Client.type_is "poetry" c || Client.type_is "novel" c = true.
Proof. unfold Client.type_is. intros ->. now destruct k. Qed.

Lemma nonempty_text (s : string) : s <> "" -> nonempty (Text s) = true.
Proof.
  intros Hs. simpl. destruct (String.eqb_spec s ""); [contradiction|reflexivity].
Qed.

Lemma upload_pdf_optional (st : Client.state) :
  optional_text (Js.get (body (Client.upload_request st)) "pdfData").
Proof.
  change (Js.get (body (Client.upload_request st)) "pdfData")
    with (match Client.newPdfData st with
          | Some s => Js.Str s
          | None => Js.Null
          end).
  destruct (Client.newPdfData st) as [s|].
  - right. right. now exists s.
  - right. now left.
Qed.

Lemma missing_field_is_rejected_aux env now d (st : Client.state) :
  Js.get (body (Client.upload_request st)) "adminKey" =
  Js.Str (admin_secret env) ->
  Client.newTitle st = "" \/ Client.newBody st = "" ->
  post_content env now d (Client.upload_request st) =
  (d, mk_response 400 (ErrorMsg "Missing fields")).
Proof.
  intros Hkey Hmiss. apply post_content_missing; [assumption|].
  change (Js.get (body (Client.upload_request st)) "title")
    with (Js.Str (Client.newTitle st)).
  change (Js.get (body (Client.upload_request st)) "body")
    with (Js.Str (Client.newBody st)).
  destruct Hmiss as [-> | ->]; cbn; rewrite ?orb_true_r; reflexivity.
Qed.

(** What the server makes of the request of [handleUpload]. *)
Lemma upload_outcome env now d (st : Client.state) :
  (Client.adminKey st = admin_secret env /\
   Client.newTitle st <> "" /\ Client.newBody st <> "" /\
   post_content env now d (Client.upload_request st) =
   (mk_db
      (mk_table
         (rows (content d) ++
          [mk_content (seq (content d) + 1)
             (Text (Client.newTitle st)) (Text (Client.newBody st))
             (Text (Client.kind_name (Client.newType st)))
             (attachment
                (Js.get (body (Client.upload_request st)) "pdfData"))
             now])
         (seq (content d) + 1))
      (reviews d),
    mk_response 200 (Id (seq (content d) + 1))))
  \/
  (Client.adminKey st <> admin_secret env /\
   post_content env now d (Client.upload_request st) =
   (d, mk_response 401 (ErrorMsg "Unauthorized")))
  \/
  (Client.adminKey st = admin_secret env /\
   (Client.newTitle st = "" \/ Client.newBody st = "") /\
   post_content env now d (Client.upload_request st) =
   (d, mk_response 400 (ErrorMsg "Missing fields"))).
Proof.
  destruct (string_dec (Client.adminKey st) (admin_secret env)) as [Hk|Hk].
  - assert (Js.get (body (Client.upload_request st)) "adminKey" =
            Js.Str (admin_secret env)) as Hkey
      by (rewrite <- Hk; reflexivity).
    destruct (string_dec (Client.newTitle st) "") as [Ht|Ht];
      [right; right; split; [assumption|]; split; [now left|];
       apply missing_field_is_rejected_aux; auto|].
    destruct (string_dec (Client.newBody st) "") as [Hb|Hb];
      [right; right; split; [assumption|]; split; [now right|];
       apply missing_field_is_rejected_aux; auto|].
    left. repeat split; try assumption.
    apply (post_content_texts env now d (Client.upload_request st)
             (Client.newTitle st) (Client.newBody st)
             (Client.kind_name (Client.newType st)));
      try assumption; try (split; [reflexivity | assumption]).
    + split; [reflexivity | apply kind_name_nonempty].
    + apply upload_pdf_optional.
  - right. left. split; [assumption|].
    apply post_content_unauthorized.
    change (Js.get (body (Client.upload_request st)) "adminKey")
      with (Js.Str (Client.adminKey st)).
    congruence.
Qed.

(** What the server makes of the request of [handleReviewSubmit]. *)
Lemma review_outcome now d (st : Client.state) :
  (Client.reviewName st <> "" /\ Client.reviewComment st <> "" /\
   post_review now d (Client.review_request st) =
   (mk_db (content d)
      (mk_table
         (rows (reviews d) ++
          [mk_review (seq (reviews d) + 1)
             (Text (Client.reviewName st)) (Text (Client.reviewComment st))
             (Integer (if Client.reviewRating st =? 0 then 5
                       else Client.reviewRating st))
             now])
         (seq (reviews d) + 1)),
    mk_response 200 (Id (seq (reviews d) + 1))))
  \/
  ((Client.reviewName st = "" \/ Client.reviewComment st = "") /\
   post_review now d (Client.review_request st) =
   (d, mk_response 400 (ErrorMsg "Missing fields"))).
Proof.
  destruct (string_dec (Client.reviewName st) "") as [Hn|Hn].
  { right. split; [now left|]. unfold post_review.
    change (Js.get (body (Client.review_request st)) "name")
      with (Js.Str (Client.reviewName st)).
    now rewrite Hn. }
  destruct (string_dec (Client.reviewComment st) "") as [Hc|Hc].
  { right. split; [now right|]. unfold post_review.
    change (Js.get (body (Client.review_request st)) "comment")
      with (Js.Str (Client.reviewComment st)).
    rewrite Hc. cbn. now rewrite orb_true_r. }
  left. repeat split; try assumption.
  apply (post_review_texts now d (Client.review_request st)
           (Client.reviewName st) (Client.reviewComment st)).
  - split; [reflexivity | assumption].
  - split; [reflexivity | assumption].
  - change (Js.get (body (Client.review_request st)) "rating")
      with (Js.Number (Client.reviewRating st)).
    unfold Js.or. simpl. now destruct (Client.reviewRating st =? 0).
Qed.

Section PageFacts.

Variable numeric : string -> option Z.

Lemma delete_content_route_keeps (p : content_row -> bool) env d req id :
  forallb p (rows (content d)) = true ->
  forallb p
    (rows (content (fst (delete_content_route numeric env d req id)))) = true
  /\ reviews (fst (delete_content_route numeric env d req id)) = reviews d.
Proof.
  intros Hp. unfold delete_content_route.
  destruct (Js.strict_neq _ _); [now split|].
  unfold delete_content. rewrite bind_text. cbn.
  destruct (_ =? 0); split; cbn; auto using forallb_filter.
Qed.

Lemma delete_review_route_keeps (p : review_row -> bool) d req id :
  forallb p (rows (reviews d)) = true ->
  forallb p
    (rows (reviews (fst (delete_review_route numeric d req id)))) = true
  /\ content (fst (delete_review_route numeric d req id)) = content d.
Proof.
  intros Hp. unfold delete_review_route, delete_review.
  rewrite bind_text. cbn.
  destruct (_ =? 0); split; cbn; auto using forallb_filter.
Qed.

Lemma handleUpload_store env now d st :
  fst (Client.handleUpload env now d st) =
  fst (post_content env now d (Client.upload_request st)).
Proof.
  unfold Client.handleUpload.
  destruct (post_content _ _ _ _) as [d1 res].
  now destruct (Client.ok res).
Qed.

Lemma handleReviewSubmit_store now d st :
  fst (Client.handleReviewSubmit now d st) =
  fst (post_review now d (Client.review_request st)).
Proof.
  unfold Client.handleReviewSubmit.
  destruct (post_review _ _ _) as [d1 res].
  now destruct (Client.ok res).
Qed.

Lemma handleDelete_store env d st id confirmed :
  fst (Client.handleDelete numeric env d st id confirmed) =
  if confirmed
  then fst (delete_content_route numeric env d (Client.delete_request st)
              (Client.render id))
  else d.
Proof.
  unfold Client.handleDelete. destruct confirmed; [|reflexivity].
  cbn [negb]. destruct (delete_content_route _ _ _ _ _) as [d1 res].
  destruct (Client.ok res); [reflexivity|].
  now destruct (json res).
Qed.

Lemma handleDeleteReview_store d st id confirmed :
  fst (Client.handleDeleteReview numeric d st id confirmed) =
  if confirmed
  then fst (delete_review_route numeric d Client.delete_review_request
              (Client.render id))
  else d.
Proof.
  unfold Client.handleDeleteReview. destruct confirmed; [|reflexivity].
  cbn [negb]. destruct (delete_review_route _ _ _ _) as [d1 res].
  now destruct (Client.ok res).
Qed.

Lemma dispatch_store env d st ev :
  page_store d -> 1 <= Client.reviewRating st <= 5 ->
  page_store (fst (Client.dispatch numeric env d st ev)).
Proof.
  intros [Hc Hr] Hrating.
  destruct ev as
    [ | | s | | s | s | k | file | now | id confirmed | id confirmed | s | s | position | now | c | ];
    cbn [Client.dispatch fst]; try (now split).
  - rewrite handleUpload_store.
    destruct (upload_outcome env now d st)
      as [[_ [Ht [Hb ->]]] | [[_ ->] | [_ [_ ->]]]]; try (now split).
    split; [|assumption]. cbn. apply forallb_snoc; [assumption|].
    unfold page_work, content_nonempty. cbn [c_title c_body].
    rewrite (nonempty_text _ Ht), (nonempty_text _ Hb). cbn [andb].
    now apply (kind_name_shown (Client.newType st)).
  - rewrite handleDelete_store. destruct confirmed; [|now split].
    destruct (delete_content_route_keeps page_work env d
                (Client.delete_request st) (Client.render id) Hc)
      as [Hc' Hr'].
    split; [assumption | now rewrite Hr'].
  - rewrite handleDeleteReview_store. destruct confirmed; [|now split].
    destruct (delete_review_route_keeps page_review d
                Client.delete_review_request (Client.render id) Hr)
      as [Hr' Hc'].
    split; [now rewrite Hc' | assumption].
  - destruct (nth_error _ position); now split.
  - rewrite handleReviewSubmit_store.
    destruct (review_outcome now d st) as [[Hn [Hcm ->]] | [_ ->]];
      [|now split].
    split; [assumption|]. cbn. apply forallb_snoc; [assumption|].
    unfold page_review, review_nonempty. cbn [r_name r_comment r_rating].
    rewrite (nonempty_text _ Hn), (nonempty_text _ Hcm). cbn [andb].
    destruct (Z.eqb_spec (Client.reviewRating st) 0); [lia|].
    apply andb_true_iff. split; apply Z.leb_le; lia.
Qed.

Lemma dispatch_rating env d st ev :
  1 <= Client.reviewRating st <= 5 ->
  1 <= Client.reviewRating (snd (Client.dispatch numeric env d st ev)) <= 5.
Proof.
  intros Hrating.
  destruct ev as
    [ | | s | | s | s | k | file | now | id confirmed | id confirmed | s | s | position | now | c | ];
    cbn [Client.dispatch snd]; try assumption.
  - unfold Client.handleAdminLogin. now destruct (_ =? _)%string.
  - destruct file as [[t r]|]; [|assumption]. cbn.
    now destruct (negb _).
  - unfold Client.handleUpload.
    destruct (post_content _ _ _ _) as [d1 res].
    now destruct (Client.ok res).
  - unfold Client.handleDelete. destruct confirmed; [|assumption].
    cbn [negb]. destruct (delete_content_route _ _ _ _ _) as [d1 res].
    destruct (Client.ok res); [assumption|].
    now destruct (json res).
  - unfold Client.handleDeleteReview. destruct confirmed; [|assumption].
    cbn [negb]. destruct (delete_review_route _ _ _ _) as [d1 res].
    now destruct (Client.ok res).
  - destruct position as [|[|[|[|[|[|p]]]]]]; cbn; lia.
  - unfold Client.handleReviewSubmit.
    destruct (post_review _ _ _) as [d1 res].
    destruct (Client.ok res); [cbn; lia | assumption].
Qed.

End PageFacts.

(** X13: whatever is done on the page, in whatever order, the rating the form
    holds stays between 1 and 5, and the store keeps holding only works
    with a non-empty title and body and the type poetry or novel, and only
    reviews with a non-empty name and comment and a rating from 1 to 5. *)
Theorem page_traffic_keeps_the_store_typed
  (numeric : string -> option Z) env evs d st :
  page_store d ->
  1 <= Client.reviewRating st <= 5 ->
  page_store (fst (Client.play numeric env d st evs)) /\
  1 <= Client.reviewRating (snd (Client.play numeric env d st evs)) <= 5.
Proof.
  revert d st. unfold Client.play.
  induction evs as [|ev evs IH]; intros d st Hd Hst;
    cbn [fold_left fst snd].
  - now split.
  - pose proof (dispatch_store numeric env d st ev Hd Hst) as Hd'.
    pose proof (dispatch_rating numeric env d st ev Hst) as Hst'.
    destruct (Client.dispatch numeric env d st ev) as [d' st'].
    now apply IH.
Qed.

Lemma page_traffic_keeps_the_store_typed_witness :
  page_store empty /\
  1 <= Client.reviewRating Client.initial <= 5 /\
  page_store
    (fst (Client.play decimal None empty Client.initial
            [Client.Mount; Client.TypeReviewName "Ann";
             Client.TypeReviewComment "Lovely."; Client.ClickStar 2;
             Client.SubmitReview 20])) /\
  rows (reviews
          (fst (Client.play decimal None empty Client.initial
                  [Client.Mount; Client.TypeReviewName "Ann";
                   Client.TypeReviewComment "Lovely."; Client.ClickStar 2;
                   Client.SubmitReview 20]))) = [ann_row 3].
Proof.
  assert (page_store empty) as Hd by (split; reflexivity).
  assert (1 <= Client.reviewRating Client.initial <= 5) as Hst
    by (simpl; lia).
  split; [exact Hd|]. split; [exact Hst|]. split.
  - exact (proj1 (page_traffic_keeps_the_store_typed decimal None _ empty
                    Client.initial Hd Hst)).
  - reflexivity.
Defined.


Lemma in_select_content (d : database) (row : content_row) :
  In row (select_content d) <-> In row (rows (content d)).
Proof.
  pose proof (order_by_desc_perm c_created_at (rows (content d))) as Hperm.
  split; intros H.
  - now apply (Permutation_in _ Hperm).
  - now apply (Permutation_in _ (Permutation_sym Hperm)).
Qed.




(** X15: the type of a work is not checked against the two kinds: created
    through the route with any other non-empty type, a work is stored and
    answered 200, and the page, once it has reloaded the list, holds it
    but draws it in neither section. *)
Theorem other_type_is_stored_but_never_shown
  env now d req t b k (st : Client.state) :
  Js.get (body req) "adminKey" = Js.Str (admin_secret env) ->
  present (Js.get (body req) "title") t ->
  present (Js.get (body req) "body") b ->
  present (Js.get (body req) "type") k ->
  optional_text (Js.get (body req) "pdfData") ->
  k <> "poetry" -> k <> "novel" ->
  exists row d1,
    post_content env now d req = (d1, mk_response 200 (Id (c_id row))) /\
    c_type row = Text k /\
    In row (Client.contents (snd (Client.fetchContent d1 st))) /\
    ~ In row (Client.poetry_section (snd (Client.fetchContent d1 st))) /\
    ~ In row (Client.novel_section (snd (Client.fetchContent d1 st))).
Proof.
  intros Hkey Ht Hb Hk Hpdf Hp Hn.
  pose proof (post_content_texts env now d req t b k Hkey Ht Hb Hk Hpdf)
    as Hpost. cbv zeta in Hpost.
  exists (mk_content (seq (content d) + 1) (Text t) (Text b) (Text k)
            (attachment (Js.get (body req) "pdfData")) now).
  eexists. split; [exact Hpost|].
  split; [reflexivity|]. cbn [Client.fetchContent get_content snd json
                               res_json Client.setContents Client.contents].
  split.
  - apply in_select_content. simpl. apply in_or_app. right. now left.
  - unfold Client.poetry_section, Client.novel_section.
    cbn [Client.contents Client.setContents].
    split; intros Hin; apply filter_In in Hin as [_ Hty];
      unfold Client.type_is in Hty; cbn [c_type] in Hty;
      apply String.eqb_eq in Hty; contradiction.
Qed.

Lemma other_type_is_stored_but_never_shown_witness :
  exists row d1,
    post_content None 10 empty (dusk "jaxelricweb") =
    (d1, mk_response 200 (Id (c_id row))) /\
    c_type row = Text "essay" /\
    In row (Client.contents (snd (Client.fetchContent d1 Client.initial))) /\
    ~ In row
        (Client.poetry_section (snd (Client.fetchContent d1 Client.initial)))
    /\
    ~ In row
        (Client.novel_section (snd (Client.fetchContent d1 Client.initial))).
Proof.
  apply (other_type_is_stored_but_never_shown None 10 empty
           (dusk "jaxelricweb") "Dusk" "Last light." "essay" Client.initial).
  - reflexivity.
  - split; [reflexivity | discriminate].
  - split; [reflexivity | discriminate].
  - split; [reflexivity | discriminate].
  - left. reflexivity.
  - discriminate.
  - discriminate.
Defined.

Lemma login_unlocks_only_the_literal (st : Client.state) :
  Client.isAdmin st = false ->
  Client.isAdmin (Client.handleAdminLogin st) = true ->
  Client.adminKey st = "jaxelricweb" /\
  Client.adminKey (Client.handleAdminLogin st) = "jaxelricweb".
Proof.
  unfold Client.handleAdminLogin.
  destruct (String.eqb_spec (Client.adminKey st) "jaxelricweb") as [E|E];
    simpl; [now split | congruence].
Qed.

Lemma ok_error (code : Z) (msg : string) :
  code = 400 \/ code = 401 \/ code = 404 ->
  Client.ok (mk_response code (ErrorMsg msg)) = false.
Proof. now intros [-> | [-> | ->]]. Qed.

(** X16: the page unlocks on the key "jaxelricweb" and no other, whatever the
    server is configured with.  When the server's secret is another one,
    an upload or a delete made right after unlocking is refused with 401,
    leaves the store as it was and shows the failure, and the server's
    real secret does not unlock the page. *)
Theorem page_unlocks_on_the_literal_key
  (numeric : string -> option Z) env now d (st : Client.state) id :
  admin_secret env <> "jaxelricweb" ->
  Client.isAdmin st = false ->
  (Client.isAdmin (Client.handleAdminLogin st) = true ->
   Client.handleUpload env now d (Client.handleAdminLogin st) =
   (d, Client.alert "Upload failed. Check your admin key."
         (Client.handleAdminLogin st)) /\
   Client.handleDelete numeric env d (Client.handleAdminLogin st) id true =
   (d, Client.alert "Delete failed: Unauthorized"
         (Client.handleAdminLogin st)))
  /\
  (Client.adminKey st = admin_secret env ->
   Client.handleAdminLogin st = Client.alert "Invalid admin key" st).
Proof.
  intros Hsecret Hlocked. split.
  - intros Hunlocked.
    destruct (login_unlocks_only_the_literal st Hlocked Hunlocked)
      as [_ Hkey].
    set (st' := Client.handleAdminLogin st) in *.
    assert (Client.adminKey st' <> admin_secret env) as Hne by congruence.
    split.
    + unfold Client.handleUpload.
      destruct (upload_outcome env now d st')
        as [[Hk _] | [[_ ->] | [Hk _]]]; try contradiction.
      reflexivity.
    + unfold Client.handleDelete. cbn [negb].
      rewrite (delete_content_route_unauthorized numeric env d
                 (Client.delete_request st') (Client.render id)).
      * reflexivity.
      * simpl. congruence.
  - intros Hkey. unfold Client.handleAdminLogin.
    destruct (String.eqb_spec (Client.adminKey st) "jaxelricweb") as [E|E];
      [congruence | reflexivity].
Qed.

Lemma page_unlocks_on_the_literal_key_witness :
  admin_secret (Some "s3cret") <> "jaxelricweb" /\
  Client.handleUpload (Some "s3cret") 10 one_each
    (Client.handleAdminLogin
       (Client.setAdminKey "jaxelricweb" Client.initial)) =
  (one_each,
   Client.alert "Upload failed. Check your admin key."
     (Client.handleAdminLogin
        (Client.setAdminKey "jaxelricweb" Client.initial))) /\
  Client.handleAdminLogin (Client.setAdminKey "s3cret" Client.initial) =
  Client.alert "Invalid admin key"
    (Client.setAdminKey "s3cret" Client.initial).
Proof.
  assert (admin_secret (Some "s3cret") <> "jaxelricweb") as Hne
    by discriminate.
  split; [exact Hne|]. split.
  - apply (proj1 (page_unlocks_on_the_literal_key decimal (Some "s3cret") 10
                    one_each
                    (Client.setAdminKey "jaxelricweb" Client.initial) 1
                    Hne eq_refl)).
    reflexivity.
  - apply (proj2 (page_unlocks_on_the_literal_key decimal (Some "s3cret") 10
                    one_each (Client.setAdminKey "s3cret" Client.initial) 1
                    Hne eq_refl)).
    reflexivity.
Defined.







Lemma dispatch_keeps_unlocked
  (numeric : string -> option Z) env d (st : Client.state) ev :
  Client.isAdmin st = true ->
  Client.isAdmin (snd (Client.dispatch numeric env d st ev)) = true.
Proof.
  intros Hadmin.
  destruct ev as
    [ | | s | | s | s | k | file | now | id confirmed | id confirmed | s | s | position | now | c | ];
    cbn [Client.dispatch snd]; try assumption.
  - unfold Client.handleAdminLogin. now destruct (_ =? _)%string.
  - destruct file as [[t r]|]; [|assumption]. cbn.
    now destruct (negb _).
  - unfold Client.handleUpload.
    destruct (post_content _ _ _ _) as [d1 res].
    now destruct (Client.ok res).
  - unfold Client.handleDelete. destruct confirmed; [|assumption].
    cbn [negb]. destruct (delete_content_route _ _ _ _ _) as [d1 res].
    destruct (Client.ok res); [assumption|].
    now destruct (json res).
  - unfold Client.handleDeleteReview. destruct confirmed; [|assumption].
    cbn [negb]. destruct (delete_review_route _ _ _ _) as [d1 res].
    now destruct (Client.ok res).
  - now destruct (nth_error _ position).
  - unfold Client.handleReviewSubmit.
    destruct (post_review _ _ _) as [d1 res].
    now destruct (Client.ok res).
Qed.

(** X20: nothing on the page locks the dashboard again: once unlocked it stays
    unlocked through every later event, typing another key and failed
    uploads included. *)
Theorem unlocked_page_stays_unlocked
  (numeric : string -> option Z) env evs d (st : Client.state) :
  Client.isAdmin st = true ->
  Client.isAdmin (snd (Client.play numeric env d st evs)) = true.
Proof.
  revert d st. unfold Client.play.
  induction evs as [|ev evs IH]; intros d st Hadmin;
    cbn [fold_left fst snd]; [assumption|].
  pose proof (dispatch_keeps_unlocked numeric env d st ev Hadmin) as H.
  destruct (Client.dispatch numeric env d st ev) as [d' st'].
  now apply IH.
Qed.

Lemma unlocked_page_stays_unlocked_witness :
  Client.isAdmin
    (Client.handleAdminLogin
       (Client.setAdminKey "jaxelricweb" Client.initial)) = true /\
  Client.isAdmin
    (snd (Client.play decimal None empty
            (Client.handleAdminLogin
               (Client.setAdminKey "jaxelricweb" Client.initial))
            [Client.TypeAdminKey "other"; Client.SubmitAdminLogin;
             Client.SubmitUpload 10])) = true.
Proof.
  split; [reflexivity|].
  exact (unlocked_page_stays_unlocked decimal None
           [Client.TypeAdminKey "other"; Client.SubmitAdminLogin;
            Client.SubmitUpload 10]
           empty
           (Client.handleAdminLogin
              (Client.setAdminKey "jaxelricweb" Client.initial))
           eq_refl).
Defined.
